(** * Job tracker: the record repository, queries and statistics

    A shallow embedding of [Job_tracker.py] (the text menu) and [app.py]
    (the dashboard), both working on the one SQLite table [jobs].

    - [Text]: the Python string methods the code calls ([strip], [lower],
      [isdigit], [int]).  A text is a [string] holding the bytes of its
      UTF-8 encoding, which is what SQLite stores.  [strip] trims every
      character that Python counts as whitespace.  [lower] is SQLite's
      [LOWER] on every text and Python's [str.lower] on a text that is all
      ASCII; [isdigit] and [int] are Python's on a text that is all ASCII.
      A theorem that depends on what Python does of a line that is not
      ASCII asks [is_ascii] of that line.
    - [Sqlite]: the table (rows in rowid order and the AUTOINCREMENT
      counter), NULL and three-valued logic, [LOWER], [LIKE], [ORDER BY],
      [GROUP BY], and the statements the two programs execute.
    - [Job_tracker] and [App]: the functions of the two source files, the
      lines read by [input()] and the widget values being their arguments,
      the messages they print being part of their result.
    - The loop of the menu runs on the list of the lines typed, with fuel;
      [main_ends] shows that the fuel it is given is enough.

    The number type of the [salary] column and Python's [float()] are
    parameters: [float s = None] stands for [ValueError], and a [float]
    that is not a number ([nan]) is told from the others, SQLite storing
    it as NULL. *)

From Stdlib Require Import ZArith List String Ascii Bool Lia.
From Stdlib Require Import Permutation Sorted.
Import ListNotations.
Local Open Scope string_scope.
Local Open Scope Z_scope.

(* ================================================================= *)
(** ** Python text *)

Module Text.

(** Every byte of the text is below 128. *)
Fixpoint is_ascii (s : string) : bool :=
  match s with
  | EmptyString => true
  | String c s' => (N_of_ascii c <? 128)%N && is_ascii s'
  end.

(** The characters for which [str.isspace] holds, by the bytes of their
    encoding.  Of one byte: tab to carriage return, the four separators
    0x1c-0x1f, and the space. *)
Definition is_space (c : ascii) : bool :=
  let n := N_of_ascii c in
  (((9 <=? n) && (n <=? 13)) || ((28 <=? n) && (n <=? 32)))%N.

(** Of two bytes: U+0085 (c2 85) and U+00A0 (c2 a0). *)
Definition is_space2 (c1 c2 : ascii) : bool :=
  let n1 := N_of_ascii c1 in
  let n2 := N_of_ascii c2 in
  ((n1 =? 194) && ((n2 =? 133) || (n2 =? 160)))%N.

(** Of three bytes: U+1680 (e1 9a 80), U+2000 to U+200A (e2 80 80 to
    e2 80 8a), U+2028, U+2029 and U+202F (e2 80 a8, a9, af), U+205F
    (e2 81 9f) and U+3000 (e3 80 80). *)
Definition is_space3 (c1 c2 c3 : ascii) : bool :=
  let n1 := N_of_ascii c1 in
  let n2 := N_of_ascii c2 in
  let n3 := N_of_ascii c3 in
  (((n1 =? 225) && (n2 =? 154) && (n3 =? 128))
   || ((n1 =? 226) && (n2 =? 128)
       && (((128 <=? n3) && (n3 <=? 138)) || (n3 =? 168) || (n3 =? 169)
           || (n3 =? 175)))
   || ((n1 =? 226) && (n2 =? 129) && (n3 =? 159))
   || ((n1 =? 227) && (n2 =? 128) && (n3 =? 128)))%N.

(** [s.lstrip()]: the whitespace characters at the start go. *)
Fixpoint lstrip (s : string) : string :=
  match s with
  | EmptyString => EmptyString
  | String c1 s1 =>
      if is_space c1 then lstrip s1
      else
        match s1 with
        | EmptyString => s
        | String c2 s2 =>
            if is_space2 c1 c2 then lstrip s2
            else
              match s2 with
              | EmptyString => s
              | String c3 s3 =>
                  if is_space3 c1 c2 c3 then lstrip s3 else s
              end
        end
  end.

(** The text is made of whitespace characters only. *)
Definition all_space (s : string) : bool :=
  match lstrip s with
  | EmptyString => true
  | _ => false
  end.

(** [s.rstrip()]: the text is cut where what follows is whitespace
    only. *)
Fixpoint rstrip (s : string) : string :=
  match s with
  | EmptyString => EmptyString
  | String c s' => if all_space s then EmptyString else String c (rstrip s')
  end.

(** [s.strip()] *)
Definition strip (s : string) : string := rstrip (lstrip s).

Definition lower_char (c : ascii) : ascii :=
  let n := N_of_ascii c in
  if ((65 <=? n) && (n <=? 90))%N then ascii_of_N (n + 32) else c.

(** SQLite's [LOWER(s)], which changes the letters A to Z and no other
    byte; it is Python's [s.lower()] when [s] is all ASCII. *)
Fixpoint lower (s : string) : string :=
  match s with
  | EmptyString => EmptyString
  | String c s' => String (lower_char c) (lower s')
  end.

Definition is_digit (c : ascii) : bool :=
  let n := N_of_ascii c in ((48 <=? n) && (n <=? 57))%N.

Fixpoint all_digits (s : string) : bool :=
  match s with
  | EmptyString => true
  | String c s' => is_digit c && all_digits s'
  end.

(** [s.isdigit()] for [s] all ASCII: at least one character, and all of
    them digits. *)
Definition isdigit (s : string) : bool :=
  match s with
  | EmptyString => false
  | _ => all_digits s
  end.

Fixpoint int_from (acc : Z) (s : string) : Z :=
  match s with
  | EmptyString => acc
  | String c s' => int_from (10 * acc + (Z.of_N (N_of_ascii c) - 48)) s'
  end.

(** [int(s)] on a string of ASCII digits. *)
Definition int (s : string) : Z := int_from 0 s.

End Text.

(* ================================================================= *)
(** ** The SQLite table and the statements run on it *)

Module Sqlite.

(** *** NULL and three-valued logic

    A nullable column is an [option]; a condition evaluates to [Some true],
    [Some false] or [None] (unknown), and [WHERE] keeps a row only when its
    condition is [Some true]. *)

Definition sql_lower (v : option string) : option string :=
  option_map Text.lower v.

Definition sql_eq (a b : option string) : option bool :=
  match a, b with
  | Some x, Some y => Some (String.eqb x y)
  | _, _ => None
  end.

Definition sql_or (a b : option bool) : option bool :=
  match a, b with
  | Some true, _ => Some true
  | _, Some true => Some true
  | Some false, Some false => Some false
  | _, _ => None
  end.

Definition holds (c : option bool) : bool :=
  match c with
  | Some true => true
  | _ => false
  end.

(** [LIKE] without an [ESCAPE] clause: [%] stands for any run of
    characters, [_] for any one character, and every other character of
    the pattern for itself, letters compared without their case. *)
Fixpoint like_match (p s : string) {struct p} : bool :=
  match p with
  | EmptyString =>
      match s with
      | EmptyString => true
      | _ => false
      end
  | String c p' =>
      if Ascii.eqb c "%" then
        (fix any (t : string) : bool :=
           like_match p' t
           || match t with
              | EmptyString => false
              | String _ t' => any t'
              end) s
      else
        match s with
        | EmptyString => false
        | String d s' =>
            (if Ascii.eqb c "_" then true
             else Ascii.eqb (Text.lower_char c) (Text.lower_char d))
            && like_match p' s'
        end
  end.

Definition sql_like (text pattern : option string) : option bool :=
  match text, pattern with
  | Some s, Some p => Some (like_match p s)
  | _, _ => None
  end.

Section Table.

Variable real : Type.

(** A row of [jobs]: [company] and [role] are [NOT NULL]. *)
Record job : Type := mk_job {
  id : Z;
  company : string;
  role : string;
  location : option string;
  applied_date : option string;
  status : option string;
  salary : option real;
  notes : option string
}.

(** The database file: the rows of [jobs] in rowid order, which is the
    order of a scan of the table, and the largest rowid ever handed out
    (the [sqlite_sequence] entry that AUTOINCREMENT keeps). *)
Record db : Type := mk_db {
  rows : list job;
  sqlite_sequence : Z
}.

(** A Python [float]: not a number, or a number, the two infinities
    among them. *)
Inductive pyfloat : Type :=
| nan
| number (x : real).

(** The value a REAL column holds for the Python value bound to it:
    SQLite stores NULL for [None] and for a [nan]. *)
Definition bind_real (v : option pyfloat) : option real :=
  match v with
  | Some (number x) => Some x
  | _ => None
  end.

(** The Python value read back from a REAL column. *)
Definition fetched_real (v : option real) : option pyfloat :=
  option_map number v.

(** [CREATE TABLE IF NOT EXISTS jobs] on a fresh file. *)
Definition empty_db : db := mk_db [] 0.

Definition max_id (l : list job) : Z :=
  fold_right (fun r m => Z.max (id r) m) 0 l.

(** [INSERT INTO jobs (company, ..., notes) VALUES (?, ..., ?)]: the new
    rowid is one more than the largest ever used; the result carries it
    ([cursor.lastrowid]). *)
Definition sql_insert (d : db) (c r : string) (l a s : option string)
    (sal : option pyfloat) (n : option string) : db * Z :=
  let i := Z.max (sqlite_sequence d) (max_id (rows d)) + 1 in
  (mk_db (rows d ++ [mk_job i c r l a s (bind_real sal) n])%list i, i).

(** [SELECT ... FROM jobs WHERE id = ?], [fetchone()] *)
Definition select_by_id (d : db) (i : Z) : option job :=
  find (fun r => id r =? i) (rows d).

(** [UPDATE jobs SET status = ?, applied_date = ?, salary = ?, notes = ?
    WHERE id = ?] *)
Definition sql_update (d : db) (s a : option string)
    (sal : option pyfloat) (n : option string) (i : Z) : db :=
  mk_db
    (map (fun r =>
            if id r =? i
            then mk_job (id r) (company r) (role r) (location r) a s
                   (bind_real sal) n
            else r)
         (rows d))
    (sqlite_sequence d).

(** [DELETE FROM jobs WHERE id = ?] *)
Definition sql_delete (d : db) (i : Z) : db :=
  mk_db (filter (fun r => negb (id r =? i)) (rows d)) (sqlite_sequence d).

(** [ORDER BY id DESC] *)
Fixpoint insert_desc (r : job) (l : list job) : list job :=
  match l with
  | [] => [r]
  | x :: l' => if id x <? id r then r :: l else x :: insert_desc r l'
  end.

Definition order_by_id_desc (l : list job) : list job :=
  fold_right insert_desc [] l.

(** [WHERE LOWER(status) = ?] *)
Definition status_is (q : string) (r : job) : bool :=
  holds (sql_eq (sql_lower (status r)) (Some q)).

(** [WHERE LOWER(company) LIKE ? OR LOWER(role) LIKE ?
    OR LOWER(location) LIKE ?], the three parameters being one pattern. *)
Definition like_any (p : string) (r : job) : bool :=
  holds
    (sql_or
       (sql_or (sql_like (sql_lower (Some (company r))) (Some p))
               (sql_like (sql_lower (Some (role r))) (Some p)))
       (sql_like (sql_lower (location r)) (Some p))).

(** The order of the groups of [GROUP BY status]: NULL first, then text
    bytewise. *)
Definition key_eqb (a b : option string) : bool :=
  match a, b with
  | None, None => true
  | Some x, Some y => String.eqb x y
  | _, _ => false
  end.

Definition key_leb (a b : option string) : bool :=
  match a, b with
  | None, _ => true
  | Some _, None => false
  | Some x, Some y => String.leb x y
  end.

(** One more row for the group of key [k]. *)
Fixpoint bump (k : option string) (g : list (option string * nat))
    : list (option string * nat) :=
  match g with
  | [] => [(k, 1%nat)]
  | (k', c) :: g' =>
      if key_eqb k k' then (k', S c) :: g'
      else if key_leb k k' then (k, 1%nat) :: g
      else (k', c) :: bump k g'
  end.

(** [SELECT status, COUNT( * ) FROM jobs GROUP BY status] *)
Definition group_by_status (l : list job) : list (option string * nat) :=
  fold_left (fun g r => bump (status r) g) l [].

(** One more row for the group of the company [k]: the groups of
    [GROUP BY company] come in the bytewise order of the companies. *)
Fixpoint bump_text (k : string) (g : list (string * nat))
    : list (string * nat) :=
  match g with
  | [] => [(k, 1%nat)]
  | (k', c) :: g' =>
      if String.eqb k k' then (k', S c) :: g'
      else if String.leb k k' then (k, 1%nat) :: g
      else (k', c) :: bump_text k g'
  end.

(** [SELECT company, COUNT( * ) FROM jobs GROUP BY company] *)
Definition group_by_company (l : list job) : list (string * nat) :=
  fold_left (fun g r => bump_text (company r) g) l [].

(** [SELECT COUNT( * ) FROM jobs] *)
Definition count_all (d : db) : nat := List.length (rows d).

(** The seven columns the listings select: every column but [notes]. *)
Definition listing : Type :=
  (Z * string * string * option string * option string * option string
   * option real)%type.

Definition columns7 (r : job) : listing :=
  (id r, company r, role r, location r, applied_date r, status r, salary r).

End Table.

Arguments mk_job {real}.
Arguments id {real}.
Arguments company {real}.
Arguments role {real}.
Arguments location {real}.
Arguments applied_date {real}.
Arguments status {real}.
Arguments salary {real}.
Arguments notes {real}.
Arguments nan {real}.
Arguments number {real}.
Arguments bind_real {real}.
Arguments fetched_real {real}.
Arguments mk_db {real}.
Arguments rows {real}.
Arguments sqlite_sequence {real}.
Arguments empty_db {real}.
Arguments max_id {real}.
Arguments sql_insert {real}.
Arguments select_by_id {real}.
Arguments sql_update {real}.
Arguments sql_delete {real}.
Arguments insert_desc {real}.
Arguments order_by_id_desc {real}.
Arguments status_is {real}.
Arguments like_any {real}.
Arguments group_by_status {real}.
Arguments group_by_company {real}.
Arguments count_all {real}.
Arguments columns7 {real}.

End Sqlite.

(* ================================================================= *)
(** ** Job_tracker.py: the text menu *)

Module Job_tracker.
Import Text Sqlite.

(** The lines the functions print that tell their caller what happened. *)
Inductive message : Type :=
| Required_not_saved            (* Company and Role are required. Job not saved. *)
| Invalid_salary_saving_empty   (* Invalid salary entered. Saving salary as empty. *)
| Saved                         (* Job application saved successfully! *)
| Invalid_id                    (* Invalid ID. Must be a number. *)
| No_job_found (job_id : Z)     (* No job found with ID ... *)
| Invalid_salary_keeping_old    (* Invalid salary entered. Keeping old salary. *)
| Updated                       (* Job updated successfully! *)
| Deletion_cancelled            (* Deletion cancelled. *)
| Deleted.                      (* Job deleted successfully! *)

(** What a filtered view did: returned to the menu without a query, or
    fetched rows (none of them when nothing matched). *)
Inductive fetched (A : Type) : Type :=
| Not_queried
| Fetched (found : list A).

Arguments Not_queried {A}.
Arguments Fetched {A}.

Definition found_rows {A : Type} (f : fetched A) : list A :=
  match f with
  | Not_queried => []
  | Fetched l => l
  end.

Section Program.

Variable real : Type.
Variable float : string -> option (pyfloat real).

(** The seven arguments are the lines read by the seven [input()] calls. *)
Definition add_job (d : db real)
    (company_line role_line location_line date_line status_line
     salary_line notes_line : string) : db real * list message :=
  let company := strip company_line in
  let role := strip role_line in
  let location := strip location_line in
  let applied_date := strip date_line in
  let status := strip status_line in
  let salary_input := strip salary_line in
  let notes := strip notes_line in
  if String.eqb company "" || String.eqb role "" then
    (d, [Required_not_saved])
  else
    let '(salary, said) :=
      if String.eqb salary_input "" then (None, [])
      else match float salary_input with
           | Some x => (Some x, [])
           | None => (None, [Invalid_salary_saving_empty])
           end in
    let d' :=
      fst (sql_insert d company role (Some location) (Some applied_date)
             (Some status) salary (Some notes)) in
    (d', (said ++ [Saved])%list).

Definition view_all_jobs (d : db real) : list (listing real) :=
  map columns7 (order_by_id_desc (rows d)).

Definition view_by_status (d : db real) (status_line : string)
    : fetched (listing real) :=
  let status_input := strip status_line in
  if String.eqb status_input "" then Not_queried
  else
    let status_clean := lower status_input in
    Fetched (map columns7 (filter (status_is status_clean) (rows d))).

(** [status if status else "Unknown"] *)
Definition label (s : option string) : string :=
  match s with
  | None => "Unknown"
  | Some t => if String.eqb t "" then "Unknown" else t
  end.

(** The total and the lines printed under "By status" (the top companies
    are left out). *)
Definition show_stats (d : db real) : nat * list (string * nat) :=
  let total := count_all d in
  let status_counts := group_by_status (rows d) in
  if Nat.eqb total 0 then (total, [])
  else (total, map (fun sc => (label (fst sc), snd sc)) status_counts).

(** The row of the id, for an id that SQLite takes: from 2^63 on the call
    raises an error instead, which the model does not have. *)
Definition get_job_by_id (d : db real) (job_id : Z) : option (job real) :=
  select_by_id d job_id.

(** The first argument is the line read for the id; the four others are
    read only once the job is found. *)
Definition update_job (d : db real)
    (job_id_line status_line date_line salary_line notes_line : string)
    : db real * list message :=
  let job_id_input := strip job_id_line in
  if negb (isdigit job_id_input) then (d, [Invalid_id])
  else
    let job_id := int job_id_input in
    match get_job_by_id d job_id with
    | None => (d, [No_job_found job_id])
    | Some job =>
        let new_status := strip status_line in
        let new_date := strip date_line in
        let new_salary_input := strip salary_line in
        let new_notes := strip notes_line in
        let new_status :=
          if String.eqb new_status "" then status job else Some new_status in
        let new_date :=
          if String.eqb new_date "" then applied_date job else Some new_date in
        let new_notes :=
          if String.eqb new_notes "" then notes job else Some new_notes in
        let '(new_salary, said) :=
          if String.eqb new_salary_input "" then
            (fetched_real (salary job), [])
          else match float new_salary_input with
               | Some x => (Some x, [])
               | None =>
                   (fetched_real (salary job), [Invalid_salary_keeping_old])
               end in
        (sql_update d new_status new_date new_salary new_notes job_id,
         (said ++ [Updated])%list)
    end.

Definition delete_job (d : db real) (job_id_line confirm_line : string)
    : db real * list message :=
  let job_id_input := strip job_id_line in
  if negb (isdigit job_id_input) then (d, [Invalid_id])
  else
    let job_id := int job_id_input in
    match get_job_by_id d job_id with
    | None => (d, [No_job_found job_id])
    | Some _ =>
        let confirm := lower (strip confirm_line) in
        if negb (String.eqb confirm "y") then (d, [Deletion_cancelled])
        else (sql_delete d job_id, [Deleted])
    end.

Definition search_jobs (d : db real) (keyword_line : string)
    : fetched (listing real) :=
  let keyword := lower (strip keyword_line) in
  if String.eqb keyword "" then Not_queried
  else
    let like_pattern := "%" ++ keyword ++ "%" in
    Fetched
      (map columns7
         (order_by_id_desc (filter (like_any like_pattern) (rows d)))).

Definition csv_header : list string :=
  ["ID"; "Company"; "Role"; "Location"; "Applied Date"; "Status"; "Salary";
   "Notes"].

(** The header and the rows handed to the CSV writer; nothing when the
    table is empty. *)
Definition export_to_csv (d : db real) : option (list string * list (job real)) :=
  match order_by_id_desc (rows d) with
  | [] => None
  | fetched_rows => Some (csv_header, fetched_rows)
  end.

(** [create_table()]: [CREATE TABLE IF NOT EXISTS] leaves a table that
    exists as it is. *)
Definition create_table (d : db real) : db real := d.

(** [add_job()] with its seven [input()] calls reading the lines that are
    left: the table, and the lines left after it; [None] when the lines run
    out, which is before anything is written. *)
Definition add_job_reading (d : db real) (lines : list string)
    : option (db real * list string) :=
  match lines with
  | c :: r :: l :: a :: s :: sal :: n :: rest =>
      Some (fst (add_job d c r l a s sal n), rest)
  | _ => None
  end.

(** [update_job()]: the id line is read first, and the four others only
    when it names a stored job. *)
Definition update_job_reading (d : db real) (lines : list string)
    : option (db real * list string) :=
  match lines with
  | [] => None
  | id_line :: rest =>
      if isdigit (strip id_line) then
        match get_job_by_id d (int (strip id_line)) with
        | None => Some (d, rest)
        | Some _ =>
            match rest with
            | s :: a :: sal :: n :: rest' =>
                Some (fst (update_job d id_line s a sal n), rest')
            | _ => None
            end
        end
      else Some (d, rest)
  end.

(** [delete_job()]: the confirmation is read only when the id line names a
    stored job. *)
Definition delete_job_reading (d : db real) (lines : list string)
    : option (db real * list string) :=
  match lines with
  | [] => None
  | id_line :: rest =>
      if isdigit (strip id_line) then
        match get_job_by_id d (int (strip id_line)) with
        | None => Some (d, rest)
        | Some _ =>
            match rest with
            | confirm_line :: rest' =>
                Some (fst (delete_job d id_line confirm_line), rest')
            | [] => None
            end
        end
      else Some (d, rest)
  end.

(** How a run of the menu ends: with the choice 9, with an [input()] that
    finds no line left ([EOFError]), or with the fuel of the model spent. *)
Inductive ending : Type :=
| Exited
| End_of_input
| Out_of_fuel.

(** The [while True] loop of [main()]: each turn reads the choice, then
    the lines of the function chosen.  The result is the table the run
    leaves and how it ended; what the turns print is left out.  A run that
    an error other than the end of the input stops leaves the table of
    the turns before it; the ending of such a run is not modelled, and
    [main_ends] keeps to the lines that raise none. *)
Fixpoint main_loop (fuel : nat) (d : db real) (lines : list string)
    : db real * ending :=
  match fuel with
  | O => (d, Out_of_fuel)
  | S fuel' =>
      match lines with
      | [] => (d, End_of_input)
      | choice_line :: rest =>
          let choice := strip choice_line in
          if String.eqb choice "1" then
            match add_job_reading d rest with
            | Some (d', rest') => main_loop fuel' d' rest'
            | None => (d, End_of_input)
            end
          else if String.eqb choice "2" then main_loop fuel' d rest
          else if String.eqb choice "3" then
            match rest with
            | _ :: rest' => main_loop fuel' d rest'
            | [] => (d, End_of_input)
            end
          else if String.eqb choice "4" then main_loop fuel' d rest
          else if String.eqb choice "5" then
            match update_job_reading d rest with
            | Some (d', rest') => main_loop fuel' d' rest'
            | None => (d, End_of_input)
            end
          else if String.eqb choice "6" then
            match delete_job_reading d rest with
            | Some (d', rest') => main_loop fuel' d' rest'
            | None => (d, End_of_input)
            end
          else if String.eqb choice "7" then
            match rest with
            | _ :: rest' => main_loop fuel' d rest'
            | [] => (d, End_of_input)
            end
          else if String.eqb choice "8" then main_loop fuel' d rest
          else if String.eqb choice "9" then (d, Exited)
          else main_loop fuel' d rest
      end
  end.

(** [main()] on the lines typed: every turn reads a line, so one unit of
    fuel more than there are lines is enough. *)
Definition main (d : db real) (lines : list string) : db real * ending :=
  main_loop (S (List.length lines)) (create_table d) lines.

(** The third query of [show_stats]: [GROUP BY company ORDER BY COUNT( * )
    DESC LIMIT 5].  SQL leaves the order of companies of equal count open:
    the sort is a parameter, of which the theorems ask that it permutes
    its argument and puts the greater counts first. *)
Variable order_by_count_desc : list (string * nat) -> list (string * nat).

Definition top_companies (d : db real) : list (string * nat) :=
  firstn 5 (order_by_count_desc (group_by_company (rows d))).

(** The lines printed under "Top companies you applied to": none when the
    table is empty, [show_stats] returning before. *)
Definition show_stats_companies (d : db real) : list (string * nat) :=
  if Nat.eqb (count_all d) 0 then [] else top_companies d.

End Program.

Arguments add_job {real}.
Arguments view_all_jobs {real}.
Arguments view_by_status {real}.
Arguments show_stats {real}.
Arguments get_job_by_id {real}.
Arguments update_job {real}.
Arguments delete_job {real}.
Arguments search_jobs {real}.
Arguments export_to_csv {real}.
Arguments create_table {real}.
Arguments add_job_reading {real}.
Arguments update_job_reading {real}.
Arguments delete_job_reading {real}.
Arguments main_loop {real}.
Arguments main {real}.
Arguments top_companies {real}.
Arguments show_stats_companies {real}.

End Job_tracker.

(* ================================================================= *)
(** ** app.py: the dashboard *)

Module App.
Import Text Sqlite.

(** [st.error], [st.warning], [st.success] and [st.info] calls. *)
Inductive notice : Type :=
| Error_required                (* Company and Role are required. *)
| Warning_saving_as_empty       (* Invalid salary. Saving as empty. *)
| Success_saved                 (* Job saved successfully! *)
| Info_no_jobs                  (* No jobs yet. *)
| Error_not_found               (* Selected job not found. *)
| Warning_keeping_old           (* Invalid salary. Keeping old value. *)
| Success_updated               (* Job updated! *)
| Success_deleted.              (* Job deleted! *)

(** The options of the two status select boxes. *)
Inductive status_option : Type :=
| Applied | Online_Test | Interview | Rejected | Offer | Other.

Definition option_text (o : status_option) : string :=
  match o with
  | Applied => "Applied"
  | Online_Test => "Online Test"
  | Interview => "Interview"
  | Rejected => "Rejected"
  | Offer => "Offer"
  | Other => "Other"
  end.

Inductive button : Type :=
| Save_changes
| Delete_this_job
| No_button.

Section Program.

Variable real : Type.
Variable float : string -> option (pyfloat real).

Definition fetch_all_jobs (d : db real) : list (job real) :=
  order_by_id_desc (rows d).

Definition insert_job (d : db real) (company role : string)
    (location applied_date status : option string)
    (salary : option (pyfloat real)) (notes : option string) : db real :=
  fst (sql_insert d company role location applied_date status salary notes).

Definition get_job_by_id (d : db real) (job_id : Z) : option (job real) :=
  select_by_id d job_id.

Definition update_job (d : db real) (job_id : Z)
    (status applied_date : option string) (salary : option (pyfloat real))
    (notes : option string) : db real :=
  sql_update d status applied_date salary notes job_id.

Definition delete_job (d : db real) (job_id : Z) : db real :=
  sql_delete d job_id.

(** The arguments are the values of the form's widgets and whether the
    form was submitted. *)
Definition page_add_job (d : db real) (company role location applied_date : string)
    (status : status_option) (salary_input notes : string)
    (submitted : bool) : db real * list notice :=
  if submitted then
    if String.eqb (strip company) "" || String.eqb (strip role) "" then
      (d, [Error_required])
    else
      let '(salary, said) :=
        if String.eqb (strip salary_input) "" then (None, [])
        else match float (strip salary_input) with
             | Some x => (Some x, [])
             | None => (None, [Warning_saving_as_empty])
             end in
      (insert_job d (strip company) (strip role) (Some (strip location))
         (Some (strip applied_date)) (Some (strip (option_text status)))
         salary (Some (strip notes)),
       (said ++ [Success_saved])%list)
  else (d, []).

(** The arguments are the chosen id, the values of the four widgets, and
    the button pressed. *)
Definition page_manage_jobs (d : db real) (selected_id : Z)
    (new_status : status_option) (new_date new_salary_input new_notes : string)
    (pressed : button) : db real * list notice :=
  match fetch_all_jobs d with
  | [] => (d, [Info_no_jobs])
  | _ =>
      match get_job_by_id d selected_id with
      | None => (d, [Error_not_found])
      | Some job =>
          match pressed with
          | Save_changes =>
              let '(new_salary, said) :=
                if String.eqb (strip new_salary_input) "" then (None, [])
                else match float (strip new_salary_input) with
                     | Some x => (Some x, [])
                     | None =>
                         (fetched_real (salary job), [Warning_keeping_old])
                     end in
              (update_job d (id job) (Some (option_text new_status))
                 (Some (strip new_date)) new_salary (Some (strip new_notes)),
               (said ++ [Success_updated])%list)
          | Delete_this_job => (delete_job d (id job), [Success_deleted])
          | No_button => (d, [])
          end
      end
  end.

End Program.

Arguments fetch_all_jobs {real}.
Arguments insert_job {real}.
Arguments get_job_by_id {real}.
Arguments update_job {real}.
Arguments delete_job {real}.
Arguments page_add_job {real}.
Arguments page_manage_jobs {real}.

End App.

(* ================================================================= *)
(** ** A number parser to run the programs with

    Whole numbers written in digits, read as [Z], and "nan": enough of
    [float()] to evaluate the programs on concrete lines. *)

Module Sample.

Definition float (s : string) : option (Sqlite.pyfloat Z) :=
  if Text.isdigit s then Some (Sqlite.number (Text.int s))
  else if String.eqb s "nan" then Some Sqlite.nan
  else None.

(** A sort for [ORDER BY COUNT( * ) DESC]: insertion, a group going in
    front of the first group of a smaller count. *)
Fixpoint insert_by_count (e : string * nat) (g : list (string * nat))
    : list (string * nat) :=
  match g with
  | [] => [e]
  | x :: g' =>
      if (snd x <? snd e)%nat then e :: g else x :: insert_by_count e g'
  end.

Definition order_by_count_desc (g : list (string * nat))
    : list (string * nat) :=
  fold_right insert_by_count [] g.

End Sample.

(* ================================================================= *)
(** ** Stores to run the programs on *)

Module Examples.
Import Sqlite.

(** A company line that ends with a no-break space (U+00A0, the bytes
    194 160): ["Acme\u00a0"] in Python. *)
Definition acme_nbsp : string :=
  "Acme" ++ String (ascii_of_nat 194) (String (ascii_of_nat 160) "").

(** One application, every optional line left blank. *)
Definition acme : db Z :=
  fst (Job_tracker.add_job Sample.float empty_db
         "Acme" "Engineer" "" "" "" "" "").

(** One application with a date, a status, a salary and notes. *)
Definition acme_paid : db Z :=
  fst (Job_tracker.add_job Sample.float empty_db
         " Acme Corp " "Engineer" "Pune" "2025-11-30" "Interview" "120"
         "call back").

Definition acme_paid_job : job Z :=
  mk_job 1 "Acme Corp" "Engineer" (Some "Pune") (Some "2025-11-30")
    (Some "Interview") (Some 120) (Some "call back").

(** One application whose status starts with a capital that is not
    ASCII. *)
Definition etude : db Z :=
  fst (Job_tracker.add_job Sample.float empty_db
         "Acme" "Engineer" "" "" "Étude" "" "").

(** Two applications of the same status. *)
Definition two_applied : db Z :=
  fst (Job_tracker.add_job Sample.float
         (fst (Job_tracker.add_job Sample.float empty_db
                 "Acme" "Engineer" "" "" "Applied" "" ""))
         "Globex" "Clerk" "" "" "Applied" "" "").

(** A table holding rows that no create of the two programs writes: a
    status that is NULL, twice, next to one that is not. *)
Definition with_nulls : db Z :=
  mk_db
    [mk_job 1 "Acme" "Engineer" None None (Some "Applied") None None;
     mk_job 2 "Acme" "Manager" None None None None None;
     mk_job 4 "Globex" "Clerk" None None None None None]
    4.

Definition globex_clerk : job Z :=
  mk_job 4 "Globex" "Clerk" None None None None None.

Definition acme_applied_job : job Z :=
  mk_job 1 "Acme" "Engineer" (Some "") (Some "") (Some "Applied") None
    (Some "").

Definition globex_applied_job : job Z :=
  mk_job 2 "Globex" "Clerk" (Some "") (Some "") (Some "Applied") None
    (Some "").

(** Three applications, two of them to one company, the statuses
    "Applied", "applied" and blank. *)
Definition three_jobs : db Z :=
  fst (Job_tracker.add_job Sample.float
         (fst (Job_tracker.add_job Sample.float
                 (fst (Job_tracker.add_job Sample.float empty_db
                         "Acme" "Engineer" "" "" "Applied" "" ""))
                 "Acme" "Manager" "" "" "applied" "" ""))
         "Globex" "Clerk" "" "" "" "" "").

(** The lines of a run of the menu: a create, a list, an update of the
    job 1, the exit, and a line that is never read. *)
Definition typed : list string :=
  ["1"; "Acme"; "Engineer"; ""; ""; "Applied"; "abc"; "";
   "2";
   " 5 "; "1"; "Offer"; ""; "120"; "";
   "9"; "1"].

End Examples.

(* ================================================================= *)
(** ** The vocabulary of the properties *)

Import Text Sqlite.

(** Equal but for the case of the letters. *)
Definition same_ignoring_case (a b : string) : Prop :=
  lower a = lower b.

(** [s.startswith(k)] *)
Fixpoint startswith (k s : string) : bool :=
  match k with
  | EmptyString => true
  | String c k' =>
      match s with
      | EmptyString => false
      | String d s' => Ascii.eqb c d && startswith k' s'
      end
  end.

(** [k in s]: [k] is a substring of [s]. *)
Fixpoint contains (k s : string) : bool :=
  startswith k s
  || match s with
     | EmptyString => false
     | String _ s' => contains k s'
     end.

(** [k] occurs in [s], the case of the letters left aside. *)
Definition occurs_ignoring_case (k s : string) : bool :=
  contains (lower k) (lower s).

(** [f] holds of some suffix of [t]: the places where a leading [%] lets
    the rest of a [LIKE] pattern start. *)
Fixpoint any_suffix (f : string -> bool) (t : string) : bool :=
  f t
  || match t with
     | EmptyString => false
     | String _ t' => any_suffix f t'
     end.

(** No character of [k] is one of the two that [LIKE] reads as a
    wildcard. *)
Fixpoint no_wildcard (k : string) : bool :=
  match k with
  | EmptyString => true
  | String c k' =>
      negb (Ascii.eqb c "%") && negb (Ascii.eqb c "_") && no_wildcard k'
  end.

Definition listing_id {real : Type} (x : listing real) : Z :=
  let '(i, _, _, _, _, _, _) := x in i.

(** The columns that no [UPDATE] of the programs writes. *)
Definition kept_columns {real : Type} (r : job real)
    : Z * string * string * option string :=
  (id r, company r, role r, location r).

(** Every element is greater than all those after it. *)
Definition descending (ids : list Z) : Prop :=
  StronglySorted (fun a b => b < a) ids.

(** The state of a table that [INTEGER PRIMARY KEY AUTOINCREMENT] keeps:
    the rows are in increasing order of their ids, which are positive and
    at most the counter. *)
Definition wf {real : Type} (d : db real) : Prop :=
  StronglySorted (fun a b => id a < id b) (rows d)
  /\ Forall (fun r => 0 < id r <= sqlite_sequence d) (rows d).

(** The number of rows of [l] whose status is [k]. *)
Definition count_status {real : Type} (k : option string) (l : list (job real))
    : nat :=
  List.length (filter (fun r => key_eqb (status r) k) l).

Definition key_lt (a b : option string) : Prop :=
  key_leb a b = true /\ a <> b.

(** The count kept for the key [k] in the result of a [GROUP BY], 0 when
    the key has no group. *)
Definition count_of (k : option string) (g : list (option string * nat))
    : nat :=
  match find (fun e => key_eqb k (fst e)) g with
  | Some e => snd e
  | None => 0%nat
  end.

Definition keys_sorted (g : list (option string * nat)) : Prop :=
  StronglySorted key_lt (map fst g).

(** What the groups hold once the rows [p] have been counted. *)
Definition counted {real : Type} (g : list (option string * nat))
    (p : list (job real)) : Prop :=
  keys_sorted g
  /\ Forall (fun e => (0 < snd e)%nat) g
  /\ list_sum (map snd g) = List.length p
  /\ forall k, count_of k g = count_status k p.

(** The number of rows of [l] whose company is [c]. *)
Definition count_company {real : Type} (c : string) (l : list (job real))
    : nat :=
  List.length (filter (fun r => String.eqb (company r) c) l).

(** The row [r] with its company written in its status too: grouping
    such rows by status is grouping the rows by company. *)
Definition company_as_status {real : Type} (r : job real) : job real :=
  mk_job (id r) (company r) (role r) (location r) (applied_date r)
    (Some (company r)) (salary r) (notes r).

(** The company and the role of the row are trimmed and not empty. *)
Definition required_filled {real : Type} (r : job real) : Prop :=
  company r <> "" /\ role r <> ""
  /\ strip (company r) = company r /\ strip (role r) = role r.

(** None of the four optional texts of the row is NULL. *)
Definition no_null_text {real : Type} (r : job real) : Prop :=
  location r <> None /\ applied_date r <> None
  /\ status r <> None /\ notes r <> None.

(** A group of [GROUP BY company] as the group of a status. *)
Definition lift_key (e : string * nat) : option string * nat :=
  (Some (fst e), snd e).

(** Every row of the table has its two required fields filled in and none
    of its optional texts NULL. *)
Definition fields_ok {real : Type} (d : db real) : Prop :=
  Forall (fun r => required_filled r /\ no_null_text r) (rows d).

(** The condition [LOWER(status) = q] on a status. *)
Definition status_matches (q : string) (k : option string) : bool :=
  holds (sql_eq (sql_lower k) (Some q)).

(** The sum of the counts of the groups whose key passes [Q]. *)
Definition matching_sum (Q : option string -> bool)
    (g : list (option string * nat)) : nat :=
  list_sum (map snd (filter (fun e => Q (fst e)) g)).

(** The text starts with a whitespace character. *)
Definition starts_with_space (s : string) : bool :=
  match s with
  | EmptyString => false
  | String c1 s1 =>
      is_space c1
      || match s1 with
         | EmptyString => false
         | String c2 s2 =>
             is_space2 c1 c2
             || match s2 with
                | EmptyString => false
                | String c3 _ => is_space3 c1 c2 c3
                end
         end
  end.

(** A line on which the model of [isdigit] and [int] is what Python does
    and that no statement refuses: all ASCII once trimmed, of at most 18
    characters when it is made of digits, so that the number is an id that
    SQLite takes, and of at most 1000 characters at all, a [LIKE] pattern
    being refused past 50000 bytes. *)
Definition plain_line (l : string) : Prop :=
  is_ascii (strip l) = true
  /\ (isdigit (strip l) = true -> (String.length (strip l) <= 18)%nat)
  /\ (String.length (strip l) <= 1000)%nat.

(** No character of the text is NUL, at which SQLite's [LIKE] stops
    reading a text and a pattern. *)
Fixpoint no_nul (s : string) : bool :=
  match s with
  | EmptyString => true
  | String c s' => negb (Ascii.eqb c Ascii.zero) && no_nul s'
  end.

(** A keyword that Python lowers as SQLite does and that [LIKE] reads
    whole: all ASCII, without NUL, of at most 1000 characters. *)
Definition plain_keyword (k : string) : Prop :=
  is_ascii k = true /\ no_nul k = true /\ (String.length k <= 1000)%nat.

(** The three columns that the search reads hold no NUL. *)
Definition searchable {real : Type} (r : job real) : Prop :=
  no_nul (company r) = true /\ no_nul (role r) = true
  /\ (forall t, location r = Some t -> no_nul t = true).


(** The counts come greater first. *)
Definition counts_descending (g : list (string * nat)) : Prop :=
  StronglySorted (fun a b => (snd b <= snd a)%nat) g.

(* ================================================================= *)
(** ** Text *)

Lemma lower_char_idem (c : ascii) : lower_char (lower_char c) = lower_char c.
Proof.
  destruct c as [[] [] [] [] [] [] [] []]; reflexivity.
Qed.

Lemma lower_idem (s : string) : lower (lower s) = lower s.
Proof.
  induction s as [|c s IH]; simpl; [reflexivity|].
  now rewrite lower_char_idem, IH.
Qed.

Lemma lower_char_percent (c : ascii) :
  Ascii.eqb (lower_char c) "%" = Ascii.eqb c "%".
Proof.
  destruct c as [[] [] [] [] [] [] [] []]; reflexivity.
Qed.

Lemma lower_char_underscore (c : ascii) :
  Ascii.eqb (lower_char c) "_" = Ascii.eqb c "_".
Proof.
  destruct c as [[] [] [] [] [] [] [] []]; reflexivity.
Qed.

Lemma no_wildcard_lower (k : string) : no_wildcard (lower k) = no_wildcard k.
Proof.
  induction k as [|c k IH]; simpl; [reflexivity|].
  now rewrite lower_char_percent, lower_char_underscore, IH.
Qed.

Lemma lower_app (a b : string) : lower (a ++ b) = (lower a ++ lower b)%string.
Proof.
  induction a as [|c a IH]; simpl; [reflexivity|now rewrite IH].
Qed.

(* ================================================================= *)
(** ** LIKE *)

Lemma like_percent (p s : string) :
  like_match (String "%" p) s = any_suffix (like_match p) s.
Proof.
  simpl. induction s as [|d s IH]; simpl; [reflexivity|].
  now rewrite IH.
Qed.

Lemma like_only_percent (s : string) : like_match "%" s = true.
Proof.
  rewrite like_percent. induction s as [|d s IH]; [reflexivity|exact IH].
Qed.

Lemma like_literal_then_percent (k s : string) :
  no_wildcard k = true ->
  like_match (k ++ "%") s = startswith (lower k) (lower s).
Proof.
  revert s. induction k as [|c k IH]; intros s Hk.
  - simpl append. rewrite like_only_percent. reflexivity.
  - simpl in Hk. apply andb_prop in Hk as [Hc Hk].
    apply andb_prop in Hc as [Hp Hu].
    apply negb_true_iff in Hp, Hu.
    cbn [append like_match lower startswith]. rewrite Hp.
    destruct s as [|d s]; [reflexivity|].
    rewrite Hu. cbn [lower startswith].
    now rewrite IH.
Qed.

Lemma any_suffix_ext (f g : string -> bool) (s : string) :
  (forall t, f t = g t) -> any_suffix f s = any_suffix g s.
Proof.
  intros E. induction s as [|d s IH]; simpl; rewrite E; [reflexivity|].
  now rewrite IH.
Qed.

Lemma any_suffix_startswith (k s : string) :
  any_suffix (fun t => startswith k (lower t)) s = contains k (lower s).
Proof.
  induction s as [|d s IH]; simpl; [reflexivity|now rewrite IH].
Qed.

(** A pattern [%k%] whose [k] has no wildcard matches the texts in which
    [k] occurs, the case of the letters left aside. *)
Lemma like_substring (k s : string) :
  no_wildcard k = true ->
  like_match ("%" ++ k ++ "%") s = occurs_ignoring_case k s.
Proof.
  intros Hk. unfold occurs_ignoring_case.
  change ("%" ++ k ++ "%")%string with (String "%" (k ++ "%")).
  rewrite like_percent.
  rewrite (any_suffix_ext _ (fun t => startswith (lower k) (lower t))).
  - apply any_suffix_startswith.
  - intros t. now apply like_literal_then_percent.
Qed.

(* ================================================================= *)
(** ** Lists *)

Section Lists.

Variable A : Type.
Implicit Types (f : A -> bool) (l : list A).

Lemma find_absent f l :
  (forall x, In x l -> f x = false) -> find f l = None.
Proof.
  induction l as [|y l IH]; simpl; intros H; [reflexivity|].
  rewrite (H y) by now left. apply IH. intros x Hx. apply H. now right.
Qed.

Lemma find_last f l (r : A) :
  (forall x, In x l -> f x = false) -> f r = true ->
  find f (l ++ [r]) = Some r.
Proof.
  induction l as [|y l IH]; simpl; intros H Hr.
  - now rewrite Hr.
  - rewrite (H y) by now left. apply IH; [|assumption].
    intros x Hx. apply H. now right.
Qed.

End Lists.

(* ================================================================= *)
(** ** ORDER BY id DESC *)

Section Ordering.

Variable real : Type.
Implicit Types (r x : job real) (l : list (job real)).

Lemma insert_desc_In r x l : In x (insert_desc r l) <-> x = r \/ In x l.
Proof.
  induction l as [|y l IH]; simpl.
  - intuition.
  - destruct (id y <? id r); simpl; [intuition|].
    rewrite IH. intuition.
Qed.

Lemma order_by_id_desc_In x l : In x (order_by_id_desc l) <-> In x l.
Proof.
  induction l as [|y l IH]; simpl; [tauto|].
  rewrite insert_desc_In, IH. intuition.
Qed.

Lemma order_by_id_desc_nil l : order_by_id_desc l = [] -> l = [].
Proof.
  destruct l as [|y l]; [reflexivity|]. intros H.
  assert (In y (order_by_id_desc (y :: l))) as Hy
    by (apply order_by_id_desc_In; now left).
  rewrite H in Hy. destruct Hy.
Qed.

Lemma insert_desc_ids r l :
  forall i, In i (map id (insert_desc r l)) <-> i = id r \/ In i (map id l).
Proof.
  intros i. rewrite !in_map_iff. split.
  - intros (x & <- & Hx). apply insert_desc_In in Hx as [->|Hx]; [now left|].
    right. now exists x.
  - intros [->|(x & <- & Hx)].
    + exists r. split; [reflexivity|]. apply insert_desc_In. now left.
    + exists x. split; [reflexivity|]. apply insert_desc_In. now right.
Qed.

Lemma insert_desc_descending r l :
  descending (map id l) -> ~ In (id r) (map id l) ->
  descending (map id (insert_desc r l)).
Proof.
  unfold descending. induction l as [|y l IH]; simpl; intros Hs Hn.
  - repeat constructor.
  - apply StronglySorted_inv in Hs as [Hs Hy].
    destruct (id y <? id r) eqn:E; simpl.
    + apply Z.ltb_lt in E. constructor.
      * constructor; assumption.
      * constructor; [assumption|].
        eapply Forall_impl; [|exact Hy]. simpl. intros; lia.
    + apply Z.ltb_ge in E. constructor.
      * apply IH; [assumption|tauto].
      * apply Forall_forall. intros i Hi.
        apply insert_desc_ids in Hi as [->|Hi].
        -- assert (id y <> id r) by (intros E'; apply Hn; now left). lia.
        -- rewrite Forall_forall in Hy. now apply Hy.
Qed.

Lemma order_by_id_desc_ids l :
  forall i, In i (map id (order_by_id_desc l)) <-> In i (map id l).
Proof.
  intros i. rewrite !in_map_iff.
  split; intros (x & E & Hx); exists x; split; try assumption;
    now apply order_by_id_desc_In.
Qed.

(** Rows with distinct ids come out with their ids decreasing. *)
Lemma order_by_id_desc_descending l :
  NoDup (map id l) -> descending (map id (order_by_id_desc l)).
Proof.
  induction l as [|y l IH]; simpl; intros Hn.
  - constructor.
  - inversion Hn as [|? ? Hy Hl]; subst.
    apply insert_desc_descending; [now apply IH|].
    now rewrite order_by_id_desc_ids.
Qed.

Lemma ascending_NoDup l :
  StronglySorted (fun a b => id a < id b) l -> NoDup (map id l).
Proof.
  induction 1 as [|y l Hs IH Hy]; simpl; constructor; [|assumption].
  rewrite in_map_iff. intros (x & E & Hx).
  rewrite Forall_forall in Hy. specialize (Hy x Hx). lia.
Qed.

Lemma ascending_filter (f : job real -> bool) l :
  StronglySorted (fun a b => id a < id b) l ->
  StronglySorted (fun a b => id a < id b) (filter f l).
Proof.
  induction 1 as [|y l Hs IH Hy]; simpl; [constructor|].
  destruct (f y); [|assumption]. constructor; [assumption|].
  rewrite Forall_forall in *. intros x Hx.
  apply filter_In in Hx as [Hx _]. now apply Hy.
Qed.

Lemma listing_ids l : map listing_id (map columns7 l) = map id l.
Proof.
  rewrite map_map. apply map_ext. reflexivity.
Qed.

End Ordering.

(* ================================================================= *)
(** ** The statements on the table *)

Section Statements.

Variable real : Type.
Implicit Types (d : db real) (r j : job real) (l : list (job real)).

Lemma max_id_nonneg l : 0 <= max_id l.
Proof.
  induction l as [|y l IH]; simpl; lia.
Qed.

Lemma max_id_ge l r : In r l -> id r <= max_id l.
Proof.
  induction l as [|y l IH]; simpl; [tauto|].
  intros [->|H]; [lia|]. specialize (IH H). lia.
Qed.

Lemma select_by_id_sound d i j :
  select_by_id d i = Some j -> id j = i /\ In j (rows d).
Proof.
  unfold select_by_id. intros H. apply find_some in H as [Hin E].
  apply Z.eqb_eq in E. tauto.
Qed.

(** A number read from the column is stored again as it is. *)
Lemma bind_fetched (v : option real) : bind_real (fetched_real v) = v.
Proof.
  now destruct v.
Qed.

(** The row just inserted is the one found under the new id, and no row
    had that id before. *)
Lemma select_inserted d c ro lo a s sal n :
  let d' := fst (sql_insert d c ro lo a s sal n) in
  let i := sqlite_sequence d' in
  snd (sql_insert d c ro lo a s sal n) = i
  /\ select_by_id d' i = Some (mk_job i c ro lo a s (bind_real sal) n)
  /\ select_by_id d i = None.
Proof.
  cbn -[Z.max]. split; [reflexivity|].
  assert (forall r, In r (rows d) ->
            (id r =? Z.max (sqlite_sequence d) (max_id (rows d)) + 1) = false)
    as Hfresh.
  { intros r Hr. apply max_id_ge in Hr. apply Z.eqb_neq. lia. }
  split.
  - unfold select_by_id. cbn -[Z.max]. apply find_last; [exact Hfresh|].
    cbn -[Z.max]. apply Z.eqb_refl.
  - unfold select_by_id. now apply find_absent.
Qed.

Lemma insert_keeps_rows d c ro lo a s sal n j :
  In j (rows d) -> In j (rows (fst (sql_insert d c ro lo a s sal n))).
Proof.
  cbn -[Z.max]. intros H. apply in_or_app. now left.
Qed.

Lemma select_updated d s a sal n i j :
  select_by_id d i = Some j ->
  select_by_id (sql_update d s a sal n i) i
  = Some (mk_job (id j) (company j) (role j) (location j) a s
            (bind_real sal) n).
Proof.
  unfold select_by_id, sql_update. cbn [rows].
  induction (rows d) as [|y l IH]; simpl; [discriminate|].
  destruct (id y =? i) eqn:E.
  - intros [= <-]. cbn [id]. now rewrite E.
  - rewrite E. exact IH.
Qed.

Lemma select_not_updated d s a sal n i i' :
  i' <> i ->
  select_by_id (sql_update d s a sal n i) i' = select_by_id d i'.
Proof.
  intros Hne. unfold select_by_id, sql_update. cbn [rows].
  induction (rows d) as [|y l IH]; simpl; [reflexivity|].
  destruct (id y =? i) eqn:E; cbn [id].
  - apply Z.eqb_eq in E. subst i.
    assert ((id y =? i') = false) as -> by (apply Z.eqb_neq; congruence).
    exact IH.
  - destruct (id y =? i'); [reflexivity|exact IH].
Qed.

(** [UPDATE] writes four columns: the four others are those of before,
    row by row. *)
Lemma update_frame d s a sal n i :
  map kept_columns (rows (sql_update d s a sal n i))
  = map kept_columns (rows d).
Proof.
  unfold sql_update. cbn [rows]. rewrite map_map. apply map_ext.
  intros r. now destruct (id r =? i).
Qed.

Lemma update_other_rows d s a sal n i r :
  In r (rows d) -> id r <> i -> In r (rows (sql_update d s a sal n i)).
Proof.
  intros Hr Hne. unfold sql_update. cbn [rows]. apply in_map_iff.
  exists r. split; [|assumption].
  apply Z.eqb_neq in Hne. now rewrite Hne.
Qed.

(** *** The table invariant *)

Lemma wf_empty : wf (@empty_db real).
Proof.
  split; constructor.
Qed.

Lemma ascending_snoc l r :
  StronglySorted (fun a b => id a < id b) l ->
  Forall (fun x => id x < id r) l ->
  StronglySorted (fun a b => id a < id b) (l ++ [r]).
Proof.
  induction 1 as [|y l Hs IH Hy]; simpl; intros Hb.
  - repeat constructor.
  - inversion Hb as [|? ? Hyr Hl]; subst. constructor; [now apply IH|].
    apply Forall_app. split; [assumption|]. now constructor.
Qed.

Lemma wf_insert d c ro lo a s sal n :
  wf d -> wf (fst (sql_insert d c ro lo a s sal n)).
Proof.
  intros [Hs Hb]. pose proof (max_id_nonneg (rows d)) as Hm.
  split; cbn -[Z.max].
  - apply ascending_snoc; [assumption|].
    apply Forall_forall. intros x Hx. apply max_id_ge in Hx.
    cbn -[Z.max]. lia.
  - apply Forall_app. split.
    + eapply Forall_impl; [|exact Hb]. cbn -[Z.max]. intros; lia.
    + constructor; [|constructor]. cbn -[Z.max]. lia.
Qed.

Lemma wf_update d s a sal n i : wf d -> wf (sql_update d s a sal n i).
Proof.
  intros [Hs Hb]. unfold wf, sql_update. cbn [rows sqlite_sequence].
  set (f := fun r : job real =>
              if id r =? i
              then mk_job (id r) (company r) (role r) (location r) a s
                     (bind_real sal) n
              else r).
  assert (forall r, id (f r) = id r) as Hid
    by (intros r; unfold f; now destruct (id r =? i)).
  split.
  - clear Hb. induction Hs as [|y l Hs IH Hy]; simpl; constructor;
      [assumption|].
    apply Forall_map. eapply Forall_impl; [|exact Hy].
    intros x. cbn beta. rewrite !Hid. tauto.
  - apply Forall_map. eapply Forall_impl; [|exact Hb].
    intros x. cbn beta. now rewrite Hid.
Qed.

Lemma wf_delete d i : wf d -> wf (sql_delete d i).
Proof.
  intros [Hs Hb]. split; cbn [sql_delete rows sqlite_sequence].
  - now apply ascending_filter.
  - apply Forall_forall. intros x Hx. apply filter_In in Hx as [Hx _].
    rewrite Forall_forall in Hb. now apply Hb.
Qed.

End Statements.

(* ================================================================= *)
(** ** The order of the group keys *)

Lemma string_compare_refl (a : string) : String.compare a a = Eq.
Proof.
  pose proof (String.compare_antisym a a) as H.
  destruct (String.compare a a); simpl in H; congruence.
Qed.

Lemma string_compare_trans (a b c : string) :
  String.compare a b = Lt -> String.compare b c = Lt ->
  String.compare a c = Lt.
Proof.
  revert b c. induction a as [|x a IH]; intros [|y b] [|z c]; simpl;
    try congruence.
  unfold Ascii.compare.
  destruct (N.compare_spec (N_of_ascii x) (N_of_ascii y)) as [E1|L1|G1];
    try discriminate;
    destruct (N.compare_spec (N_of_ascii y) (N_of_ascii z)) as [E2|L2|G2];
    try discriminate; intros H1 H2.
  - rewrite E1, E2, N.compare_refl. now apply IH with b.
  - rewrite E1. now apply N.compare_lt_iff in L2 as ->.
  - rewrite <- E2. now apply N.compare_lt_iff in L1 as ->.
  - assert (N_of_ascii x < N_of_ascii z)%N as L by lia.
    now apply N.compare_lt_iff in L as ->.
Qed.

Lemma key_eqb_eq (a b : option string) : key_eqb a b = true <-> a = b.
Proof.
  destruct a as [x|], b as [y|]; simpl; try (split; congruence).
  rewrite String.eqb_eq. split; congruence.
Qed.

Lemma key_eqb_refl (a : option string) : key_eqb a a = true.
Proof.
  now apply key_eqb_eq.
Qed.

Lemma key_eqb_sym (a b : option string) : key_eqb a b = key_eqb b a.
Proof.
  destruct a, b; simpl; try reflexivity. apply String.eqb_sym.
Qed.

Lemma key_eqb_neq (a b : option string) : key_eqb a b = false <-> a <> b.
Proof.
  rewrite <- key_eqb_eq. destruct (key_eqb a b); split; congruence.
Qed.

Lemma key_lt_text (x y : string) :
  key_lt (Some x) (Some y) <-> String.compare x y = Lt.
Proof.
  unfold key_lt, key_leb, String.leb. split.
  - intros [H Hne]. destruct (String.compare x y) eqn:E;
      [|reflexivity|discriminate].
    apply String.compare_eq_iff in E. congruence.
  - intros E. rewrite E. split; [reflexivity|].
    intros [= ->]. rewrite string_compare_refl in E. discriminate.
Qed.

Lemma key_lt_trans (a b c : option string) :
  key_lt a b -> key_lt b c -> key_lt a c.
Proof.
  destruct a as [x|], b as [y|], c as [z|]; try (intros [? ?] [? ?];
    simpl in *; (congruence || (split; [reflexivity|congruence]))).
  rewrite !key_lt_text. apply string_compare_trans.
Qed.

Lemma key_lt_irrefl (a : option string) : ~ key_lt a a.
Proof.
  intros [_ H]. now apply H.
Qed.

(** Of two different keys, the one that is not below is above. *)
Lemma key_leb_false (a b : option string) :
  key_leb a b = false -> key_lt b a.
Proof.
  destruct a as [x|], b as [y|]; simpl; try discriminate.
  - intros H. apply key_lt_text. unfold String.leb in H.
    rewrite String.compare_antisym.
    destruct (String.compare x y); simpl; congruence.
  - intros _. split; [reflexivity|congruence].
Qed.

(* ================================================================= *)
(** ** GROUP BY status *)

Section Grouping.

Variable real : Type.
Implicit Types (g : list (option string * nat)) (k : option string).
Implicit Types (l p : list (job real)).

Lemma bump_keys k g :
  forall k', In k' (map fst (bump k g)) <-> k' = k \/ In k' (map fst g).
Proof.
  induction g as [|[k0 c] g IH]; intros k'; simpl.
  - intuition.
  - destruct (key_eqb k k0) eqn:E.
    + apply key_eqb_eq in E. subst. simpl. intuition.
    + destruct (key_leb k k0); simpl; [intuition|].
      rewrite IH. intuition.
Qed.

Lemma bump_sorted k g : keys_sorted g -> keys_sorted (bump k g).
Proof.
  unfold keys_sorted. induction g as [|[k0 c] g IH]; simpl; intros Hs.
  - repeat constructor.
  - apply StronglySorted_inv in Hs as [Hs H0]. cbn [fst] in *.
    destruct (key_eqb k k0) eqn:E; [simpl; now constructor|].
    apply key_eqb_neq in E.
    destruct (key_leb k k0) eqn:L; simpl.
    + assert (key_lt k k0) as Hk by now split.
      constructor; [now constructor|]. constructor; [assumption|].
      eapply Forall_impl; [|exact H0]. intros b. now apply key_lt_trans.
    + apply key_leb_false in L. constructor; [now apply IH|].
      apply Forall_forall. intros b Hb. apply bump_keys in Hb as [->|Hb];
        [assumption|].
      rewrite Forall_forall in H0. now apply H0.
Qed.

Lemma count_of_below k g :
  Forall (key_lt k) (map fst g) -> count_of k g = 0%nat.
Proof.
  intros H0. unfold count_of. rewrite find_absent; [reflexivity|].
  intros e He. apply key_eqb_neq. intros ->.
  rewrite Forall_forall in H0.
  apply (key_lt_irrefl (fst e)), H0. now apply in_map.
Qed.

Lemma bump_count k g k' :
  keys_sorted g ->
  count_of k' (bump k g)
  = if key_eqb k' k then S (count_of k' g) else count_of k' g.
Proof.
  unfold keys_sorted. induction g as [|[k0 c] g IH]; simpl; intros Hs.
  - unfold count_of. simpl. now destruct (key_eqb k' k).
  - apply StronglySorted_inv in Hs as [Hs H0]. cbn [fst] in *.
    destruct (key_eqb k k0) eqn:E.
    + apply key_eqb_eq in E. subst k0. unfold count_of. simpl.
      now destruct (key_eqb k' k).
    + apply key_eqb_neq in E. destruct (key_leb k k0) eqn:L.
      * destruct (key_eqb k' k) eqn:E'.
        -- apply key_eqb_eq in E'. subst k'.
           assert (key_lt k k0) as Hk by now split.
           assert (count_of k ((k0, c) :: g) = 0%nat) as ->.
           { apply count_of_below.
             simpl. constructor; [apply Hk|].
             eapply Forall_impl; [|exact H0].
             intros b. now apply key_lt_trans. }
           unfold count_of. simpl. now rewrite key_eqb_refl.
        -- unfold count_of. simpl. now rewrite E'.
      * unfold count_of in *. simpl.
        destruct (key_eqb k' k0) eqn:E0.
        -- apply key_eqb_eq in E0. subst k0.
           assert (key_eqb k' k = false) as ->; [|reflexivity].
           apply key_eqb_neq. congruence.
        -- now apply IH.
Qed.

Lemma bump_sum k g :
  list_sum (map snd (bump k g)) = S (list_sum (map snd g)).
Proof.
  induction g as [|[k0 c] g IH]; simpl; [reflexivity|].
  destruct (key_eqb k k0); [reflexivity|].
  destruct (key_leb k k0); simpl; [reflexivity|]. rewrite IH. lia.
Qed.

Lemma bump_positive k g :
  Forall (fun e => (0 < snd e)%nat) g ->
  Forall (fun e => (0 < snd e)%nat) (bump k g).
Proof.
  induction g as [|[k0 c] g IH]; simpl; intros H.
  - repeat constructor.
  - inversion H as [|? ? Hc Hg]; subst. cbn [snd] in Hc.
    destruct (key_eqb k k0); [constructor; [cbn; lia|assumption]|].
    destruct (key_leb k k0); constructor; auto; cbn; lia.
Qed.

Lemma count_status_snoc k p (r : job real) :
  count_status k (p ++ [r])
  = (count_status k p + if key_eqb (status r) k then 1 else 0)%nat.
Proof.
  unfold count_status. rewrite filter_app, length_app. simpl.
  now destruct (key_eqb (status r) k).
Qed.

Lemma counted_bump g p (r : job real) :
  counted g p -> counted (bump (status r) g) (p ++ [r]).
Proof.
  intros (Hs & Hp & Hsum & Hc). repeat split.
  - now apply bump_sorted.
  - now apply bump_positive.
  - rewrite bump_sum, Hsum, length_app. simpl. lia.
  - intros k. rewrite bump_count by assumption.
    rewrite count_status_snoc, Hc, (key_eqb_sym k).
    destruct (key_eqb (status r) k); lia.
Qed.

Lemma counted_fold l g p :
  counted g p ->
  counted (fold_left (fun g r => bump (status r) g) l g) (p ++ l).
Proof.
  revert g p. induction l as [|r l IH]; intros g p H; simpl.
  - now rewrite app_nil_r.
  - change (r :: l) with ([r] ++ l)%list. rewrite app_assoc.
    apply IH. now apply counted_bump.
Qed.

Lemma counted_group_by l : counted (group_by_status l) l.
Proof.
  apply (counted_fold l [] []). repeat split; try constructor.
Qed.

Lemma keys_sorted_NoDup g : keys_sorted g -> NoDup (map fst g).
Proof.
  unfold keys_sorted. induction 1 as [|k ks Hs IH Hk]; constructor;
    [|assumption].
  intros Hin. rewrite Forall_forall in Hk.
  now apply (key_lt_irrefl k), Hk.
Qed.

Lemma count_of_In k c g :
  count_of k g = c -> (0 < c)%nat -> In (k, c) g.
Proof.
  unfold count_of. destruct (find _ g) as [[k0 c0]|] eqn:E; [|simpl; lia].
  apply find_some in E as [Hin Hk]. cbn [fst snd] in *.
  apply key_eqb_eq in Hk. now intros <- _; subst.
Qed.

Lemma In_count_of k c g :
  keys_sorted g -> In (k, c) g -> count_of k g = c.
Proof.
  unfold keys_sorted, count_of. induction g as [|[k0 c0] g IH]; simpl;
    [tauto|].
  intros Hs. apply StronglySorted_inv in Hs as [Hs H0].
  intros [[= -> ->]|Hin]; [now rewrite key_eqb_refl|].
  destruct (key_eqb k k0) eqn:E; [|now apply IH].
  apply key_eqb_eq in E. subst k0. exfalso.
  rewrite Forall_forall in H0. apply (key_lt_irrefl k), H0.
  now apply (in_map fst) in Hin.
Qed.

End Grouping.

(* ================================================================= *)
(** ** Create and read *)

Import Job_tracker App.

(** The facts about the row that the [INSERT] of the goal has added. *)
Ltac inserted Hnew Hold :=
  match goal with
  | |- context [sql_insert ?d ?c ?r ?l ?a ?s ?x ?n] =>
      destruct (select_inserted _ d c r l a s x n) as (_ & Hnew & Hold);
      cbv zeta in Hnew, Hold
  end.

Lemma nonempty_eqb (s : string) : s <> "" -> String.eqb s "" = false.
Proof.
  intros H. now apply String.eqb_neq.
Qed.

Section Create.

Variable real : Type.
Variable float : string -> option (pyfloat real).
Implicit Types (d : db real) (j : job real).

(** C1, as the code has it.  A create with a company and a role that are
    not blank once trimmed gives the new record an id that no record had,
    and reading that id returns the trimmed texts of the seven lines: the
    salary is the number read from its line, null when the line is blank,
    is refused by [float()] or is read as a [nan], and a location, date,
    status or notes line left blank is read back as the empty string, not
    as null. *)
Theorem add_job_then_read d company role location date status sal notes :
  strip company <> "" -> strip role <> "" ->
  let d' :=
    fst (add_job float d company role location date status sal notes) in
  let new_id := sqlite_sequence d' in
  Job_tracker.get_job_by_id d new_id = None
  /\ Job_tracker.get_job_by_id d' new_id
     = Some (mk_job new_id (strip company) (strip role)
               (Some (strip location)) (Some (strip date))
               (Some (strip status))
               (if String.eqb (strip sal) "" then None
                else match float (strip sal) with
                     | Some (number x) => Some x
                     | Some nan => None
                     | None => None
                     end)
               (Some (strip notes)))
  /\ (forall j, Job_tracker.get_job_by_id d' new_id = Some j ->
        (strip sal = "" -> salary j = None)
        /\ (strip location = "" -> Sqlite.location j = Some "")
        /\ (strip date = "" -> applied_date j = Some "")
        /\ (strip status = "" -> Sqlite.status j = Some "")
        /\ (strip notes = "" -> Sqlite.notes j = Some "")).
Proof.
  intros Hc Hr. unfold add_job, Job_tracker.get_job_by_id.
  rewrite (nonempty_eqb _ Hc), (nonempty_eqb _ Hr). cbn [orb].
  destruct (String.eqb (strip sal) "") eqn:E;
    [|destruct (float (strip sal)) as [[|x]|]]; cbn [fst];
    inserted Hnew Hold;
    (split; [exact Hold|]); (split; [exact Hnew|]);
    intros j Hj; rewrite Hnew in Hj; injection Hj as <-; cbn;
    repeat split; intros E'; try (now rewrite E');
    rewrite E' in E; discriminate.
Qed.

(** C3.  When the company or the role is blank once trimmed, the create
    of the text menu and the one of the dashboard report that both are
    required and hand the store back as it was: the same rows, the same
    count. *)
Theorem create_requires_company_and_role d company role location date status
    sal notes (chosen : status_option) :
  strip company = "" \/ strip role = "" ->
  let menu := add_job float d company role location date status sal notes in
  let page :=
    page_add_job float d company role location date chosen sal notes true in
  menu = (d, [Required_not_saved])
  /\ page = (d, [Error_required])
  /\ rows (fst menu) = rows d /\ count_all (fst menu) = count_all d
  /\ rows (fst page) = rows d /\ count_all (fst page) = count_all d.
Proof.
  intros H. cbv zeta. unfold add_job, page_add_job.
  assert (String.eqb (strip company) "" || String.eqb (strip role) "" = true)
    as ->.
  { apply orb_true_iff. rewrite !String.eqb_eq. exact H. }
  repeat split.
Qed.

End Create.

(* ================================================================= *)
(** ** Update *)

Section Update.

Variable real : Type.
Variable float : string -> option (pyfloat real).
Implicit Types (d : db real) (j : job real).

(** The update of the text menu, once the id line names a stored job. *)
Lemma update_job_found d id_line status_line date_line sal notes_line j :
  isdigit (strip id_line) = true ->
  Job_tracker.get_job_by_id d (int (strip id_line)) = Some j ->
  Job_tracker.update_job float d id_line status_line date_line sal notes_line
  = (sql_update d
       (if String.eqb (strip status_line) "" then status j
        else Some (strip status_line))
       (if String.eqb (strip date_line) "" then applied_date j
        else Some (strip date_line))
       (if String.eqb (strip sal) "" then fetched_real (salary j)
        else match float (strip sal) with
             | Some x => Some x
             | None => fetched_real (salary j)
             end)
       (if String.eqb (strip notes_line) "" then notes j
        else Some (strip notes_line))
       (int (strip id_line)),
     ((if String.eqb (strip sal) "" then []
       else match float (strip sal) with
            | Some _ => []
            | None => [Invalid_salary_keeping_old]
            end) ++ [Updated])%list).
Proof.
  intros Hd Hj. unfold Job_tracker.update_job. rewrite Hd, Hj. cbn [negb].
  destruct (String.eqb (strip sal) ""); [reflexivity|].
  now destruct (float (strip sal)).
Qed.

Lemma fetch_all_jobs_nonempty d i j :
  App.get_job_by_id d i = Some j -> fetch_all_jobs d <> [].
Proof.
  intros Hj E. apply order_by_id_desc_nil in E.
  apply select_by_id_sound in Hj as [_ Hin]. rewrite E in Hin. destruct Hin.
Qed.

(** The save of the dashboard, once the chosen id is one of a stored job. *)
Lemma page_manage_jobs_save d i j (chosen : status_option) new_date sal
    new_notes :
  App.get_job_by_id d i = Some j ->
  page_manage_jobs float d i chosen new_date sal new_notes Save_changes
  = (sql_update d (Some (option_text chosen)) (Some (strip new_date))
       (if String.eqb (strip sal) "" then None
        else match float (strip sal) with
             | Some x => Some x
             | None => fetched_real (salary j)
             end)
       (Some (strip new_notes)) i,
     ((if String.eqb (strip sal) "" then []
       else match float (strip sal) with
            | Some _ => []
            | None => [Warning_keeping_old]
            end) ++ [Success_updated])%list).
Proof.
  intros Hj. pose proof (fetch_all_jobs_nonempty d i j Hj) as Hne.
  unfold page_manage_jobs. destruct (fetch_all_jobs d); [congruence|].
  rewrite Hj. apply select_by_id_sound in Hj as [-> _].
  unfold App.update_job.
  destruct (String.eqb (strip sal) ""); [reflexivity|].
  now destruct (float (strip sal)).
Qed.


(** C4, as the code has it.  In the update of the text menu each of the
    four lines left blank keeps the field of the record as it was,
    independently of the three others.  The save of the dashboard writes
    what its widgets hold instead: the chosen status option, the trimmed
    date and notes (the empty string when blank), and null for a blank
    salary. *)
Theorem blank_update_fields d id_line status_line date_line sal notes_line j
    (chosen : status_option) new_date new_notes :
  isdigit (strip id_line) = true ->
  Job_tracker.get_job_by_id d (int (strip id_line)) = Some j ->
  (exists j',
     Job_tracker.get_job_by_id
       (fst (Job_tracker.update_job float d id_line status_line date_line sal
               notes_line)) (id j) = Some j'
     /\ (strip status_line = "" -> status j' = status j)
     /\ (strip date_line = "" -> applied_date j' = applied_date j)
     /\ (strip sal = "" -> salary j' = salary j)
     /\ (strip notes_line = "" -> notes j' = notes j))
  /\ (exists j',
        App.get_job_by_id
          (fst (page_manage_jobs float d (id j) chosen new_date sal new_notes
                  Save_changes)) (id j) = Some j'
        /\ status j' = Some (option_text chosen)
        /\ applied_date j' = Some (strip new_date)
        /\ (strip sal = "" -> salary j' = None)
        /\ notes j' = Some (strip new_notes)).
Proof.
  intros Hd Hj.
  pose proof (select_by_id_sound _ _ _ _ Hj) as [Hid _].
  split.
  - rewrite (update_job_found d _ _ _ _ _ j Hd Hj). cbn [fst].
    unfold Job_tracker.get_job_by_id in *. rewrite Hid.
    rewrite (select_updated _ _ _ _ _ _ _ j Hj).
    eexists. split; [reflexivity|]. cbn [status applied_date salary notes].
    repeat split; intros E; rewrite E; cbn [String.eqb];
      rewrite ?bind_fetched; reflexivity.
  - rewrite <- Hid in Hj.
    rewrite (page_manage_jobs_save d _ j _ _ _ _ Hj). cbn [fst].
    unfold App.get_job_by_id, Job_tracker.get_job_by_id in *.
    rewrite (select_updated _ _ _ _ _ _ _ j Hj).
    eexists. split; [reflexivity|]. cbn [status applied_date salary notes].
    repeat split. intros E. now rewrite E.
Qed.

(** C5.  Whatever the lines and the widgets hold, an update leaves the id,
    the company and the role of every record as they were (and its location
    too): row by row, these columns of the table are those of before.  This
    holds for the update of the text menu, for the [UPDATE] helper of the
    dashboard and for the dashboard's save. *)
Theorem update_keeps_id_company_role d id_line status_line date_line sal
    notes_line i (s a : option string) (x : option (pyfloat real))
    (n : option string) (chosen : status_option) new_date new_notes :
  map kept_columns
    (rows (fst (Job_tracker.update_job float d id_line status_line date_line
                  sal notes_line)))
  = map kept_columns (rows d)
  /\ map kept_columns (rows (App.update_job d i s a x n))
     = map kept_columns (rows d)
  /\ map kept_columns
       (rows (fst (page_manage_jobs float d i chosen new_date sal new_notes
                     Save_changes)))
     = map kept_columns (rows d).
Proof.
  repeat split.
  - destruct (isdigit (strip id_line)) eqn:Hd.
    + destruct (Job_tracker.get_job_by_id d (int (strip id_line)))
        as [j|] eqn:Hj.
      * rewrite (update_job_found d _ _ _ _ _ j Hd Hj). apply update_frame.
      * unfold Job_tracker.update_job. now rewrite Hd, Hj.
    + unfold Job_tracker.update_job. now rewrite Hd.
  - apply update_frame.
  - destruct (App.get_job_by_id d i) as [j|] eqn:Hj.
    + rewrite (page_manage_jobs_save d _ j _ _ _ _ Hj). apply update_frame.
    + unfold page_manage_jobs. rewrite Hj. now destruct (fetch_all_jobs d).
Qed.

End Update.

(* ================================================================= *)
(** ** Filter by status and search *)

Lemma lower_empty (s : string) : lower s = "" <-> s = "".
Proof.
  destruct s; simpl; split; congruence.
Qed.

Lemma occurs_lower (k s : string) :
  occurs_ignoring_case (lower k) (lower s) = occurs_ignoring_case k s.
Proof.
  unfold occurs_ignoring_case. now rewrite !lower_idem.
Qed.

Section Queries.

Variable real : Type.
Implicit Types (d : db real) (r : job real) (l : list (job real)).

(** A row is listed by a [SELECT ... WHERE] exactly when it passes the
    condition, the condition reading only columns that are listed. *)
Lemma in_listing_filter (P : job real -> bool) l r :
  (forall a b, columns7 a = columns7 b -> P a = P b) ->
  In r l ->
  (In (columns7 r) (map columns7 (filter P l)) <-> P r = true).
Proof.
  intros HP Hr. rewrite in_map_iff. split.
  - intros (x & E & Hx). apply filter_In in Hx as [_ Hx].
    now rewrite <- (HP x r E).
  - intros H. exists r. split; [reflexivity|]. apply filter_In. now split.
Qed.

Lemma status_is_listed q (a b : job real) :
  columns7 a = columns7 b -> status_is q a = status_is q b.
Proof.
  unfold columns7, status_is. intros [= _ _ _ _ _ E _]. now rewrite E.
Qed.

Lemma like_any_listed p (a b : job real) :
  columns7 a = columns7 b -> like_any p a = like_any p b.
Proof.
  unfold columns7, like_any. intros [= _ Ec Er El _ _ _].
  now rewrite Ec, Er, El.
Qed.

Lemma status_is_true q r :
  status_is q r = true <-> exists s, status r = Some s /\ lower s = q.
Proof.
  unfold status_is. destruct (status r) as [s|]; simpl.
  - destruct (String.eqb_spec (lower s) q) as [E|E]; simpl.
    + split; [|reflexivity]. intros _. now exists s.
    + split; [discriminate|]. intros (s' & [= <-] & E'). contradiction.
  - split; [discriminate|]. intros (s' & E & _). discriminate.
Qed.

Lemma view_by_status_fetched d line :
  strip line <> "" ->
  view_by_status d line
  = Fetched (map columns7 (filter (status_is (lower (strip line))) (rows d))).
Proof.
  intros H. unfold view_by_status. now rewrite (nonempty_eqb _ H).
Qed.

(** What the filter lists for a status line that is all ASCII and not
    blank: the stored records that have a status and whose status, as a
    whole, equals the trimmed line but for the case of the letters A to Z.
    So a record of status "Interview" is listed for "interview" and is
    not for "Interv". *)
Theorem view_by_status_exact d line r :
  strip line <> "" -> is_ascii (strip line) = true -> In r (rows d) ->
  (In (columns7 r) (found_rows (view_by_status d line))
   <-> exists s, status r = Some s /\ same_ignoring_case s (strip line))
  /\ (status r = Some "Interview" ->
      In (columns7 r) (found_rows (view_by_status d "interview"))
      /\ ~ In (columns7 r) (found_rows (view_by_status d "Interv"))).
Proof.
  intros Hq _ Hr. split.
  - rewrite (view_by_status_fetched d line Hq). cbn [found_rows].
    rewrite (in_listing_filter _ _ r (status_is_listed _) Hr).
    apply status_is_true.
  - intros Hs. split.
    + apply <- (in_listing_filter _ (rows d) r
                  (status_is_listed (lower (strip "interview"))) Hr).
      unfold status_is. now rewrite Hs.
    + intros H.
      apply -> (in_listing_filter _ (rows d) r
                  (status_is_listed (lower (strip "Interv"))) Hr) in H.
      unfold status_is in H. rewrite Hs in H. discriminate.
Qed.

(** C10.  Whatever the status line, the filter lists no stored record
    whose status is null: on a blank line nothing is fetched at all, and
    otherwise [LOWER(NULL) = ?] is unknown, which [WHERE] does not keep. *)
Theorem null_status_never_listed d line r :
  In r (rows d) -> status r = None ->
  ~ In (columns7 r) (found_rows (view_by_status d line)).
Proof.
  intros Hr Hs. unfold view_by_status.
  destruct (String.eqb (strip line) ""); cbn [found_rows]; [tauto|].
  rewrite (in_listing_filter _ _ r (status_is_listed _) Hr).
  unfold status_is. now rewrite Hs.
Qed.

Lemma search_jobs_fetched d line :
  strip line <> "" ->
  search_jobs d line
  = Fetched
      (map columns7
         (order_by_id_desc
            (filter (like_any ("%" ++ lower (strip line) ++ "%")) (rows d)))).
Proof.
  intros H. unfold search_jobs.
  assert (lower (strip line) <> "") as H' by now rewrite lower_empty.
  now rewrite (nonempty_eqb _ H').
Qed.

Lemma like_any_true k r :
  no_wildcard k = true ->
  like_any ("%" ++ lower k ++ "%") r = true
  <-> occurs_ignoring_case k (company r) = true
      \/ occurs_ignoring_case k (role r) = true
      \/ exists t, location r = Some t /\ occurs_ignoring_case k t = true.
Proof.
  intros Hk. rewrite <- no_wildcard_lower in Hk. unfold like_any.
  destruct (location r) as [t|]; cbn [sql_lower option_map sql_like];
    rewrite !(like_substring _ _ Hk), !occurs_lower.
  - destruct (occurs_ignoring_case k (company r)),
      (occurs_ignoring_case k (role r)),
      (occurs_ignoring_case k t) eqn:E; cbn; split; intros H; auto;
      try discriminate; try (right; right; exists t; now split);
      destruct H as [H|[H|(t' & [= <-] & H)]]; congruence.
  - destruct (occurs_ignoring_case k (company r)),
      (occurs_ignoring_case k (role r)); cbn; split; intros H; auto;
      try discriminate;
      destruct H as [H|[H|(t' & H & _)]]; congruence.
Qed.

(** X21.  What the search lists when the keyword is all ASCII, of at most
    1000 characters, and has none of the two wildcard characters of
    [LIKE]: the stored records in whose company, role or location, when
    it is not null, the keyword occurs, the case of the letters A to Z
    left aside.  Neither the keyword nor the three columns of the record
    hold a NUL, at which [LIKE] would stop reading. *)
Lemma search_jobs_plain_keyword d line r :
  strip line <> "" -> plain_keyword (strip line) ->
  no_wildcard (strip line) = true -> In r (rows d) -> searchable r ->
  (In (columns7 r) (found_rows (search_jobs d line))
   <-> occurs_ignoring_case (strip line) (company r) = true
       \/ occurs_ignoring_case (strip line) (role r) = true
       \/ exists t, location r = Some t
                    /\ occurs_ignoring_case (strip line) t = true).
Proof.
  intros Hq _ Hk Hr _.
  rewrite (search_jobs_fetched d line Hq). cbn [found_rows].
  rewrite <- (like_any_true _ r Hk). rewrite in_map_iff. split.
  - intros (x & E & Hx). apply order_by_id_desc_In, filter_In in Hx as [_ Hx].
    now rewrite <- (like_any_listed _ x r E).
  - intros H. exists r. split; [reflexivity|].
    apply order_by_id_desc_In, filter_In. now split.
Qed.

(** *** The order of the listings *)

Lemma view_all_jobs_descending d :
  wf d -> descending (map listing_id (view_all_jobs d)).
Proof.
  intros [Hs _]. unfold view_all_jobs. rewrite listing_ids.
  now apply order_by_id_desc_descending, ascending_NoDup.
Qed.

Lemma search_jobs_descending d line :
  wf d -> descending (map listing_id (found_rows (search_jobs d line))).
Proof.
  intros [Hs _]. unfold search_jobs.
  destruct (String.eqb (lower (strip line)) ""); cbn [found_rows map];
    [constructor|].
  rewrite listing_ids.
  now apply order_by_id_desc_descending, ascending_NoDup, ascending_filter.
Qed.

Lemma export_to_csv_descending d header exported :
  wf d -> export_to_csv d = Some (header, exported) ->
  descending (map id exported).
Proof.
  intros [Hs _]. unfold export_to_csv.
  pose proof (order_by_id_desc_descending _ _ (ascending_NoDup _ _ Hs)) as H.
  destruct (order_by_id_desc (rows d)); [discriminate|].
  now intros [= _ <-].
Qed.

Lemma fetch_all_jobs_descending d :
  wf d -> descending (map id (fetch_all_jobs d)).
Proof.
  intros [Hs _].
  now apply order_by_id_desc_descending, ascending_NoDup.
Qed.

(** The filter by status has no [ORDER BY]: its rows come in the order of
    the scan of the table, the ids increasing. *)
Lemma view_by_status_scan_order d line :
  wf d ->
  StronglySorted Z.lt (map listing_id (found_rows (view_by_status d line))).
Proof.
  intros [Hs _]. unfold view_by_status.
  destruct (String.eqb (strip line) ""); cbn [found_rows map];
    [constructor|].
  rewrite listing_ids.
  apply (ascending_filter _ (status_is (lower (strip line)))) in Hs.
  induction Hs as [|y l Hs IH Hy]; simpl; constructor; [assumption|].
  now apply Forall_map.
Qed.

End Queries.

(* ================================================================= *)
(** ** The programs keep the table invariant *)

Section Invariant.

Variable real : Type.
Variable float : string -> option (pyfloat real).
Implicit Types (d : db real).

Lemma wf_add_job d company role location date status sal notes :
  wf d ->
  wf (fst (add_job float d company role location date status sal notes)).
Proof.
  intros H. unfold add_job.
  destruct (String.eqb (strip company) "" || String.eqb (strip role) "");
    [exact H|].
  destruct (String.eqb (strip sal) ""); [|destruct (float (strip sal))];
    now apply wf_insert.
Qed.

Lemma wf_update_job d id_line status_line date_line sal notes_line :
  wf d ->
  wf (fst (Job_tracker.update_job float d id_line status_line date_line sal
             notes_line)).
Proof.
  intros H. destruct (isdigit (strip id_line)) eqn:Hd.
  - destruct (Job_tracker.get_job_by_id d (int (strip id_line)))
      as [j|] eqn:Hj.
    + rewrite (update_job_found _ float d _ _ _ _ _ j Hd Hj).
      now apply wf_update.
    + unfold Job_tracker.update_job. now rewrite Hd, Hj.
  - unfold Job_tracker.update_job. now rewrite Hd.
Qed.

Lemma wf_delete_job d id_line confirm_line :
  wf d -> wf (fst (Job_tracker.delete_job d id_line confirm_line)).
Proof.
  intros H. unfold Job_tracker.delete_job.
  destruct (isdigit (strip id_line)); [|exact H]. cbn [negb].
  destruct (Job_tracker.get_job_by_id d (int (strip id_line))); [|exact H].
  destruct (String.eqb (lower (strip confirm_line)) "y"); [|exact H].
  now apply wf_delete.
Qed.

Lemma wf_page_add_job d company role location date (chosen : status_option)
    sal notes submitted :
  wf d ->
  wf (fst (page_add_job float d company role location date chosen sal notes
             submitted)).
Proof.
  intros H. unfold page_add_job, insert_job.
  destruct submitted; [|exact H].
  destruct (String.eqb (strip company) "" || String.eqb (strip role) "");
    [exact H|].
  destruct (String.eqb (strip sal) ""); [|destruct (float (strip sal))];
    now apply wf_insert.
Qed.

Lemma wf_page_manage_jobs d i (chosen : status_option) new_date sal new_notes
    pressed :
  wf d ->
  wf (fst (page_manage_jobs float d i chosen new_date sal new_notes pressed)).
Proof.
  intros H. unfold page_manage_jobs, App.update_job, App.delete_job.
  destruct (fetch_all_jobs d); [exact H|].
  destruct (App.get_job_by_id d i); [|exact H].
  destruct pressed; [|now apply wf_delete|exact H].
  destruct (String.eqb (strip sal) ""); [|destruct (float (strip sal))];
    now apply wf_update.
Qed.

End Invariant.

(* ================================================================= *)
(** ** Statistics *)

Section Statistics.

Variable real : Type.
Implicit Types (d : db real) (r : job real) (l : list (job real)).

Lemma count_status_positive k l r :
  In r l -> status r = k -> (0 < count_status k l)%nat.
Proof.
  intros Hr Hk. unfold count_status.
  assert (In r (filter (fun x => key_eqb (status x) k) l)) as H.
  { apply filter_In. split; [assumption|]. now apply key_eqb_eq. }
  destruct (filter _ l); [destruct H|simpl; lia].
Qed.

Lemma show_stats_total d : fst (show_stats d) = count_all d.
Proof.
  unfold show_stats. now destruct (Nat.eqb (count_all d) 0).
Qed.

(** C9.  The groups of the count by status are a partition of the records:
    no status has two groups, the group of a status counts the records of
    that status and only a status some record has gets a group, and the
    counts, those of the query and those printed, add up to the total.  The
    records of null status make one group, which is printed under the
    label "Unknown". *)
Theorem status_counts_partition d :
  let groups := group_by_status (rows d) in
  let total := fst (show_stats d) in
  let lines := snd (show_stats d) in
  total = count_all d
  /\ list_sum (map snd groups) = total
  /\ list_sum (map snd lines) = total
  /\ NoDup (map fst groups)
  /\ (forall k c,
        In (k, c) groups <-> c = count_status k (rows d) /\ (0 < c)%nat)
  /\ (forall r, In r (rows d) -> status r = None ->
        In (None, count_status None (rows d)) groups
        /\ label None = "Unknown"
        /\ In ("Unknown", count_status None (rows d)) lines).
Proof.
  cbv zeta. rewrite show_stats_total.
  destruct (counted_group_by real (rows d)) as (Hs & Hp & Hsum & Hc).
  assert (forall k c,
            In (k, c) (group_by_status (rows d))
            <-> c = count_status k (rows d) /\ (0 < c)%nat) as Hin.
  { intros k c. split.
    - intros H. split.
      + rewrite <- Hc. symmetry. now apply In_count_of.
      + rewrite Forall_forall in Hp. exact (Hp _ H).
    - intros [-> H]. apply count_of_In; [apply Hc|exact H]. }
  split; [reflexivity|]. split; [exact Hsum|]. split.
  { unfold show_stats. destruct (Nat.eqb (count_all d) 0) eqn:E; cbn [snd].
    - apply Nat.eqb_eq in E. now rewrite E.
    - rewrite map_map. exact Hsum. }
  split; [now apply keys_sorted_NoDup|]. split; [exact Hin|].
  intros r Hr Hn.
  assert (In (None, count_status None (rows d)) (group_by_status (rows d)))
    as Hg.
  { apply Hin. split; [reflexivity|]. now apply count_status_positive with r. }
  split; [exact Hg|]. split; [reflexivity|].
  unfold show_stats. destruct (Nat.eqb (count_all d) 0) eqn:E; cbn [snd].
  - apply Nat.eqb_eq in E. unfold count_all in E.
    destruct (rows d); [destruct Hr|discriminate].
  - apply in_map_iff.
    exists (None, count_status None (rows d)). now split.
Qed.

(** The label "Unknown" is also the one of the group of the empty status,
    the status that a create with a blank status line stores. *)
Lemma label_of_empty_status : label (Some "") = "Unknown".
Proof.
  reflexivity.
Qed.

End Statistics.

(* ================================================================= *)
(** ** The programs on concrete lines *)

(** C6 fails on the code.  With two applications of status "Applied" in
    a well-formed table, the filter by status lists the ids 1 then 2: its
    [SELECT] has no [ORDER BY], unlike those of the full list, the search
    and the export, and the ids come increasing, not decreasing. *)
Theorem view_by_status_not_descending :
  wf Examples.two_applied
  /\ map listing_id
       (found_rows (view_by_status Examples.two_applied "Applied"))
     = [1; 2]
  /\ ~ descending
         (map listing_id
            (found_rows (view_by_status Examples.two_applied "Applied")))
  /\ map listing_id (view_all_jobs Examples.two_applied) = [2; 1]
  /\ map listing_id (found_rows (search_jobs Examples.two_applied "e"))
     = [2; 1].
Proof.
  split; [|split; [reflexivity|split; [|split; reflexivity]]].
  - unfold Examples.two_applied. do 2 apply wf_add_job. apply wf_empty.
  - intros H. change (descending [1; 2]) in H.
    apply StronglySorted_inv in H as [_ H].
    apply Forall_inv in H. lia.
Qed.

(** C7 fails on the code.  The one stored record has the status "Étude";
    the status line "étude", the same word but for the case of its first
    letter, lists nothing.  [LOWER] of SQLite changes the letters A to Z
    only and leaves the status as it is, while the line, lowered by
    Python, stays "étude": the two sides of [LOWER(status) = ?] differ.
    With "Etude" and "etude", all ASCII, the record is listed. *)
Theorem view_by_status_misses_accented_capital :
  map (@status Z) (rows Examples.etude) = [Some "Étude"]
  /\ sql_lower (Some "Étude") = Some "Étude"
  /\ lower (strip "étude") = "étude"
  /\ view_by_status Examples.etude "étude" = Fetched []
  /\ found_rows
       (view_by_status
          (fst (add_job Sample.float empty_db
                  "Acme" "Engineer" "" "" "Etude" "" "")) "etude")
     = [(1, "Acme", "Engineer", Some "", Some "", Some "Etude", None)].
Proof.
  repeat split.
Qed.

(** C8 fails on the code.  The keyword "_" occurs neither in the company
    "Acme" nor in the role "Engineer" nor in the empty location of the one
    stored record, and the search lists that record all the same: the
    keyword goes into the [LIKE] pattern as it is, where [_] stands for any
    one character. *)
Theorem search_jobs_underscore_matches :
  map (@company Z) (rows Examples.acme) = ["Acme"]
  /\ map (@role Z) (rows Examples.acme) = ["Engineer"]
  /\ map (@location Z) (rows Examples.acme) = [Some ""]
  /\ occurs_ignoring_case "_" "Acme" = false
  /\ occurs_ignoring_case "_" "Engineer" = false
  /\ occurs_ignoring_case "_" "" = false
  /\ found_rows (search_jobs Examples.acme "_")
     = map columns7 (rows Examples.acme).
Proof.
  repeat split.
Qed.

(** C1 fails on the code: after a create whose location, date, status and
    notes lines are blank, the record read back holds the empty string in
    these four fields, none of them null. *)
Lemma add_job_blank_text_not_null :
  exists j,
    Job_tracker.get_job_by_id Examples.acme (sqlite_sequence Examples.acme)
    = Some j
    /\ location j = Some "" /\ location j <> None
    /\ applied_date j <> None /\ status j <> None /\ notes j <> None.
Proof.
  eexists. split; [reflexivity|]. cbn. repeat split; discriminate.
Qed.

(** C4 fails on the code: the save of the dashboard with its salary, date
    and notes widgets blank turns a salary of 120 into null, and the date
    and the notes into the empty string. *)
Lemma dashboard_blank_fields_not_kept :
  let saved :=
    fst (page_manage_jobs Sample.float Examples.acme_paid 1 Interview
           "" "" "" Save_changes) in
  exists before after,
    App.get_job_by_id Examples.acme_paid 1 = Some before
    /\ App.get_job_by_id saved 1 = Some after
    /\ salary before = Some 120 /\ salary after = None
    /\ salary after <> salary before
    /\ applied_date after <> applied_date before
    /\ notes after <> notes before.
Proof.
  do 2 eexists. split; [reflexivity|]. split; [reflexivity|]. cbn.
  repeat split; discriminate.
Qed.

(* ================================================================= *)
(** ** The theorems at concrete inputs *)

(** A create with every line filled in, read back under the id 1; and a
    create whose company ends with a no-break space and whose salary line
    is "nan", read back with the company trimmed and a null salary. *)
Lemma add_job_then_read_witness :
  strip " Acme Corp " <> "" /\ strip "Engineer" <> ""
  /\ Job_tracker.get_job_by_id Examples.acme_paid 1
     = Some Examples.acme_paid_job
  /\ Sample.float (strip " nan ") = Some nan
  /\ Job_tracker.get_job_by_id
       (fst (add_job Sample.float empty_db Examples.acme_nbsp "Engineer" "" ""
               "" " nan " "")) 1
     = Some (mk_job 1 "Acme" "Engineer" (Some "") (Some "") (Some "") None
               (Some "")).
Proof.
  assert (strip " Acme Corp " <> "") as H1 by (cbv; discriminate).
  assert (strip "Engineer" <> "") as H2 by (cbv; discriminate).
  assert (strip Examples.acme_nbsp <> "") as H3 by (cbv; discriminate).
  split; [exact H1|]. split; [exact H2|]. split.
  - exact (proj1 (proj2 (add_job_then_read Z Sample.float empty_db
                           " Acme Corp " "Engineer" "Pune" "2025-11-30"
                           "Interview" "120" "call back" H1 H2))).
  - split; [reflexivity|].
    exact (proj1 (proj2 (add_job_then_read Z Sample.float empty_db
                           Examples.acme_nbsp "Engineer" "" "" "" " nan " ""
                           H3 H2))).
Defined.


(** A company line of three spaces. *)
Lemma create_requires_company_and_role_witness :
  strip "   " = ""
  /\ add_job Sample.float Examples.acme "   " "Engineer" "" "" "" "" ""
     = (Examples.acme, [Required_not_saved])
  /\ page_add_job Sample.float Examples.acme "   " "Engineer" "" "" Applied
       "" "" true
     = (Examples.acme, [Error_required]).
Proof.
  assert (strip "   " = "" \/ strip "Engineer" = "") as H
    by (left; reflexivity).
  destruct (create_requires_company_and_role Z Sample.float Examples.acme
              "   " "Engineer" "" "" "" "" "" Applied H) as (A & B & _).
  split; [reflexivity|]. split; [exact A|exact B].
Defined.

(** An update of the job 1 that fills in the status line only. *)
Lemma blank_update_fields_witness :
  exists j',
    Job_tracker.get_job_by_id
      (fst (Job_tracker.update_job Sample.float Examples.acme_paid
              "1" "Offer" "" "" "")) 1 = Some j'
    /\ status j' = Some "Offer"
    /\ applied_date j' = Some "2025-11-30"
    /\ salary j' = Some 120
    /\ notes j' = Some "call back".
Proof.
  assert (isdigit (strip "1") = true) as H1 by reflexivity.
  assert (Job_tracker.get_job_by_id Examples.acme_paid (int (strip "1"))
          = Some Examples.acme_paid_job) as H2 by reflexivity.
  destruct (blank_update_fields Z Sample.float Examples.acme_paid
              "1" "Offer" "" "" "" Examples.acme_paid_job Applied "" ""
              H1 H2) as ((j' & Hj & _ & Hd & Hs & Hn) & _).
  exists j'. split; [exact Hj|]. split.
  - cbv in Hj. injection Hj as <-. reflexivity.
  - split; [exact (Hd eq_refl)|]. split; [exact (Hs eq_refl)|].
    exact (Hn eq_refl).
Defined.

(** The job of status "Interview" under three status lines. *)
Lemma view_by_status_exact_witness :
  strip " INTERVIEW " <> ""
  /\ In Examples.acme_paid_job (rows Examples.acme_paid)
  /\ In (columns7 Examples.acme_paid_job)
       (found_rows (view_by_status Examples.acme_paid " INTERVIEW "))
  /\ In (columns7 Examples.acme_paid_job)
       (found_rows (view_by_status Examples.acme_paid "interview"))
  /\ ~ In (columns7 Examples.acme_paid_job)
         (found_rows (view_by_status Examples.acme_paid "Interv")).
Proof.
  assert (strip " INTERVIEW " <> "") as H1 by (cbv; discriminate).
  assert (In Examples.acme_paid_job (rows Examples.acme_paid)) as H2
    by (left; reflexivity).
  destruct (view_by_status_exact Z Examples.acme_paid " INTERVIEW "
              Examples.acme_paid_job H1 eq_refl H2) as (A & B).
  split; [exact H1|]. split; [exact H2|]. split.
  - apply A. exists "Interview". split; reflexivity.
  - exact (B eq_refl).
Defined.

(** Two records of null status and one of status "Applied". *)
Lemma status_counts_partition_witness :
  In Examples.globex_clerk (rows Examples.with_nulls)
  /\ status Examples.globex_clerk = None
  /\ show_stats Examples.with_nulls
     = (3%nat, [("Unknown", 2%nat); ("Applied", 1%nat)])
  /\ In (None, 2%nat) (group_by_status (rows Examples.with_nulls))
  /\ In ("Unknown", 2%nat) (snd (show_stats Examples.with_nulls)).
Proof.
  assert (In Examples.globex_clerk (rows Examples.with_nulls)) as H1
    by (right; right; left; reflexivity).
  destruct (status_counts_partition Z Examples.with_nulls)
    as (_ & _ & _ & _ & _ & H).
  destruct (H Examples.globex_clerk H1 eq_refl) as (A & _ & B).
  split; [exact H1|]. split; [reflexivity|]. split; [reflexivity|].
  split; [exact A|exact B].
Defined.

(** A record of null status under the lines "unknown" and "". *)
Lemma null_status_never_listed_witness :
  In Examples.globex_clerk (rows Examples.with_nulls)
  /\ status Examples.globex_clerk = None
  /\ ~ In (columns7 Examples.globex_clerk)
         (found_rows (view_by_status Examples.with_nulls "unknown"))
  /\ ~ In (columns7 Examples.globex_clerk)
         (found_rows (view_by_status Examples.with_nulls "")).
Proof.
  assert (In Examples.globex_clerk (rows Examples.with_nulls)) as H1
    by (right; right; left; reflexivity).
  split; [exact H1|]. split; [reflexivity|]. split.
  - exact (null_status_never_listed Z Examples.with_nulls "unknown"
             Examples.globex_clerk H1 eq_refl).
  - exact (null_status_never_listed Z Examples.with_nulls ""
             Examples.globex_clerk H1 eq_refl).
Defined.

(* ================================================================= *)
(** ** More on text: trimming *)

(** The cases of [lstrip], for proofs that follow them. *)
Lemma lstrip_cases (P : string -> string -> Prop) :
  (forall s, starts_with_space s = false -> P s s) ->
  (forall c1 s1, is_space c1 = true -> P s1 (lstrip s1) ->
     P (String c1 s1) (lstrip s1)) ->
  (forall c1 c2 s2, is_space c1 = false -> is_space2 c1 c2 = true ->
     P s2 (lstrip s2) -> P (String c1 (String c2 s2)) (lstrip s2)) ->
  (forall c1 c2 c3 s3, is_space c1 = false -> is_space2 c1 c2 = false ->
     is_space3 c1 c2 c3 = true -> P s3 (lstrip s3) ->
     P (String c1 (String c2 (String c3 s3))) (lstrip s3)) ->
  forall s, P s (lstrip s).
Proof.
  intros H0 H1 H2 H3 s.
  assert (forall n s, (String.length s <= n)%nat -> P s (lstrip s)) as H.
  { clear s. induction n as [|n IH]; intros s Hn.
    - destruct s; [|simpl in Hn; lia]. now apply H0.
    - destruct s as [|c1 s1]; [now apply H0|]. simpl in Hn.
      cbn [lstrip]. destruct (is_space c1) eqn:E1.
      { apply H1; [assumption|]. apply IH. lia. }
      destruct s1 as [|c2 s2].
      { apply H0. simpl. now rewrite E1. }
      simpl in Hn. destruct (is_space2 c1 c2) eqn:E2.
      { apply H2; try assumption. apply IH. lia. }
      destruct s2 as [|c3 s3].
      { apply H0. simpl. now rewrite E1, E2. }
      simpl in Hn. destruct (is_space3 c1 c2 c3) eqn:E3.
      { apply H3; try assumption. apply IH. lia. }
      apply H0. simpl. now rewrite E1, E2, E3. }
  now apply (H (String.length s)).
Qed.

Lemma lstrip_fixed (s : string) : starts_with_space s = false -> lstrip s = s.
Proof.
  destruct s as [|c1 [|c2 [|c3 s3]]]; cbn [starts_with_space lstrip];
    try reflexivity;
    [destruct (is_space c1)
    |destruct (is_space c1), (is_space2 c1 c2)
    |destruct (is_space c1), (is_space2 c1 c2), (is_space3 c1 c2 c3)];
    cbn [orb]; intros H; (discriminate || reflexivity).
Qed.

Lemma lstrip_no_space (s : string) : starts_with_space (lstrip s) = false.
Proof.
  apply (lstrip_cases (fun _ t => starts_with_space t = false)); auto.
Qed.

Lemma starts_with_space_app (u v : string) :
  starts_with_space u = true -> starts_with_space (u ++ v) = true.
Proof.
  destruct u as [|c1 [|c2 [|c3 u]]]; cbn [starts_with_space append];
    try discriminate; try trivial.
  - destruct (is_space c1); cbn [orb]; [reflexivity|discriminate].
  - destruct (is_space c1), (is_space2 c1 c2); cbn [orb];
      try reflexivity; try discriminate.
Qed.

Lemma lstrip_app (u v : string) :
  lstrip u = "" -> lstrip (u ++ v) = lstrip v.
Proof.
  apply (lstrip_cases
           (fun u t => t = "" -> lstrip (u ++ v) = lstrip v)).
  - intros s Hs ->. reflexivity.
  - intros c1 s1 E1 IH H. simpl. rewrite E1. now apply IH.
  - intros c1 c2 s2 E1 E2 IH H. simpl. rewrite E1, E2. now apply IH.
  - intros c1 c2 c3 s3 E1 E2 E3 IH H. simpl. rewrite E1, E2, E3.
    now apply IH.
Qed.

Lemma all_space_app (u v : string) :
  all_space u = true -> all_space v = true -> all_space (u ++ v) = true.
Proof.
  unfold all_space. intros Hu Hv.
  rewrite lstrip_app; [exact Hv|]. now destruct (lstrip u).
Qed.

Lemma rstrip_split (s : string) :
  exists v, s = (rstrip s ++ v)%string /\ all_space v = true.
Proof.
  induction s as [|c s IH].
  - exists "". split; reflexivity.
  - cbn [rstrip]. destruct (all_space (String c s)) eqn:E.
    + exists (String c s). now split.
    + destruct IH as (v & Hs & Hv). exists v. split; [|exact Hv].
      simpl. now rewrite <- Hs.
Qed.

Lemma rstrip_empty (s : string) : rstrip s = "" -> all_space s = true.
Proof.
  destruct s as [|c s]; [reflexivity|]. cbn [rstrip].
  destruct (all_space (String c s)); [reflexivity|discriminate].
Qed.

Lemma rstrip_idem (s : string) : rstrip (rstrip s) = rstrip s.
Proof.
  induction s as [|c s IH]; [reflexivity|]. cbn [rstrip].
  destruct (all_space (String c s)) eqn:E; [reflexivity|].
  cbn [rstrip]. rewrite IH.
  destruct (all_space (String c (rstrip s))) eqn:E'; [|reflexivity].
  destruct (rstrip_split s) as (v & Hs & Hv).
  pose proof (all_space_app _ _ E' Hv) as H. simpl in H.
  rewrite <- Hs in H. congruence.
Qed.

(** Trimming what is trimmed changes nothing. *)
Lemma strip_idem (s : string) : strip (strip s) = strip s.
Proof.
  unfold strip. set (t := lstrip s).
  assert (starts_with_space (rstrip t) = false) as H.
  { destruct (starts_with_space (rstrip t)) eqn:E; [|reflexivity].
    destruct (rstrip_split t) as (v & Ht & _).
    apply (starts_with_space_app _ v) in E. rewrite <- Ht in E.
    unfold t in E. now rewrite lstrip_no_space in E. }
  rewrite (lstrip_fixed _ H). apply rstrip_idem.
Qed.


(* ================================================================= *)
(** ** What an INSERT, an UPDATE and a DELETE leave alone *)

Section Frames.

Variable real : Type.
Implicit Types (d : db real) (r j : job real) (l : list (job real)).

Lemma find_app_found (f : job real -> bool) l l' r :
  find f l = Some r -> find f (l ++ l') = Some r.
Proof.
  induction l as [|y l IH]; simpl; [discriminate|].
  destruct (f y); [trivial|exact IH].
Qed.

Lemma filter_all (f : job real -> bool) l :
  (forall x, In x l -> f x = true) -> filter f l = l.
Proof.
  induction l as [|y l IH]; simpl; intros H; [reflexivity|].
  rewrite (H y) by now left. f_equal. apply IH. intros x Hx. apply H.
  now right.
Qed.

Lemma select_absent d i :
  select_by_id d i = None -> forall r, In r (rows d) -> id r <> i.
Proof.
  intros H r Hr E. apply (find_none _ _ H) in Hr. apply Z.eqb_neq in Hr.
  contradiction.
Qed.

Lemma delete_absent d i : select_by_id d i = None -> sql_delete d i = d.
Proof.
  intros H. destruct d as [l s]. unfold sql_delete. cbn [rows sqlite_sequence].
  f_equal. apply filter_all. intros r Hr.
  apply negb_true_iff, Z.eqb_neq. exact (select_absent _ _ H r Hr).
Qed.

Lemma select_deleted d i : select_by_id (sql_delete d i) i = None.
Proof.
  unfold select_by_id, sql_delete. cbn [rows]. apply find_absent.
  intros r Hr. apply filter_In in Hr as [_ Hr].
  now apply negb_true_iff in Hr.
Qed.

Lemma select_not_deleted d i i' :
  i' <> i -> select_by_id (sql_delete d i) i' = select_by_id d i'.
Proof.
  intros Hne. unfold select_by_id, sql_delete. cbn [rows].
  induction (rows d) as [|y l IH]; simpl; [reflexivity|].
  destruct (id y =? i) eqn:E; simpl.
  - apply Z.eqb_eq in E. subst i.
    assert ((id y =? i') = false) as -> by (apply Z.eqb_neq; congruence).
    exact IH.
  - destruct (id y =? i'); [reflexivity|exact IH].
Qed.

Lemma delete_one_row l i :
  StronglySorted (fun a b => id a < id b) l ->
  (exists r, In r l /\ id r = i) ->
  S (List.length (filter (fun r => negb (id r =? i)) l)) = List.length l.
Proof.
  induction 1 as [|y l Hs IH Hy]; intros (r & Hr & E); [destruct Hr|].
  simpl. destruct (id y =? i) eqn:Ey; simpl.
  - apply Z.eqb_eq in Ey. f_equal. f_equal. apply filter_all.
    intros x Hx. apply negb_true_iff, Z.eqb_neq.
    rewrite Forall_forall in Hy. specialize (Hy x Hx). lia.
  - f_equal. apply IH. destruct Hr as [->|Hr].
    + apply Z.eqb_neq in Ey. contradiction.
    + now exists r.
Qed.

Lemma delete_count d i j :
  wf d -> select_by_id d i = Some j ->
  S (count_all (sql_delete d i)) = count_all d.
Proof.
  intros [Hs _] Hj. apply select_by_id_sound in Hj as [E Hin].
  unfold count_all, sql_delete. cbn [rows]. apply delete_one_row;
    [assumption|]. now exists j.
Qed.

Lemma max_id_bounded d : wf d -> max_id (rows d) <= Z.max 0 (sqlite_sequence d).
Proof.
  intros [_ Hb]. induction Hb as [|y l Hy Hb IH]; simpl; lia.
Qed.

End Frames.

(* ================================================================= *)
(** ** Delete, create and update: the records they reach *)

Section Records.

Variable real : Type.
Variable float : string -> option (pyfloat real).
Implicit Types (d : db real) (j : job real).


(** X2.  On the dashboard, the delete button on a stored job removes that
    record and nothing else: the id is no longer found, every other id is
    found as before, and the table has one record less.  The widgets of
    the form play no part. *)
Theorem page_manage_jobs_delete d i j (chosen : status_option) new_date sal
    new_notes :
  wf d ->
  App.get_job_by_id d i = Some j ->
  let done :=
    page_manage_jobs float d i chosen new_date sal new_notes
      Delete_this_job in
  snd done = [Success_deleted]
  /\ fst done = App.delete_job d i
  /\ App.get_job_by_id (fst done) i = None
  /\ (forall i', i' <> i ->
        App.get_job_by_id (fst done) i' = App.get_job_by_id d i')
  /\ S (count_all (fst done)) = count_all d.
Proof.
  intros Hw Hj. cbv zeta.
  pose proof (fetch_all_jobs_nonempty _ d i j Hj) as Hne.
  pose proof (select_by_id_sound _ _ _ _ Hj) as [Hid _].
  unfold page_manage_jobs. destruct (fetch_all_jobs d); [congruence|].
  rewrite Hj, Hid. cbn [fst snd]. unfold App.delete_job, App.get_job_by_id.
  split; [reflexivity|]. split; [reflexivity|].
  split; [apply select_deleted|].
  split; [intros i' Hi; now apply select_not_deleted|].
  now apply delete_count with j.
Qed.

(** X3.  A delete of an id that no record has changes nothing: the
    [DELETE] helper of the dashboard returns the table it was given, and
    the text menu says that no job was found, before it asks for any
    confirmation.  The id line is one of at most 18 digits, an id that
    SQLite takes: a longer one can be past 2^63, where the lookup raises
    an error that nothing catches. *)
Theorem delete_missing_id d i id_line confirm_line :
  App.get_job_by_id d i = None ->
  isdigit (strip id_line) = true -> int (strip id_line) = i ->
  (String.length (strip id_line) <= 18)%nat ->
  App.delete_job d i = d
  /\ Job_tracker.delete_job d id_line confirm_line = (d, [No_job_found i]).
Proof.
  intros Hj Hd Hi _. split.
  - now apply delete_absent.
  - unfold Job_tracker.delete_job, Job_tracker.get_job_by_id.
    unfold App.get_job_by_id in Hj. now rewrite Hd, Hi, Hj.
Qed.

(** A create that passes the check of the two required fields is one
    [INSERT] of the trimmed lines. *)
Lemma add_job_inserts d company role location date status sal notes :
  strip company <> "" -> strip role <> "" ->
  fst (add_job float d company role location date status sal notes)
  = fst (sql_insert d (strip company) (strip role) (Some (strip location))
           (Some (strip date)) (Some (strip status))
           (if String.eqb (strip sal) "" then None else float (strip sal))
           (Some (strip notes))).
Proof.
  intros Hc Hr. unfold add_job.
  rewrite (nonempty_eqb _ Hc), (nonempty_eqb _ Hr). cbn [orb].
  destruct (String.eqb (strip sal) ""); [reflexivity|].
  now destruct (float (strip sal)).
Qed.

(** X4.  An id is not handed out twice.  In a well-formed table, after the
    delete of any id, the next create gets an id above the counter and
    above every id the table held before the delete, the deleted one
    among them; no record of the table before the delete had that id. *)
Theorem deleted_id_not_reused d i company role location date status sal
    notes :
  wf d -> strip company <> "" -> strip role <> "" ->
  let created :=
    fst (add_job float (App.delete_job d i) company role location date
           status sal notes) in
  let new_id := sqlite_sequence created in
  sqlite_sequence d < new_id
  /\ (forall r, In r (rows d) -> id r < new_id)
  /\ Job_tracker.get_job_by_id d new_id = None
  /\ option_map Sqlite.company (Job_tracker.get_job_by_id created new_id)
     = Some (strip company).
Proof.
  intros Hw Hc Hr. cbv zeta. rewrite (add_job_inserts _ _ _ _ _ _ _ _ Hc Hr).
  unfold Job_tracker.get_job_by_id. inserted Hnew Hold. rewrite Hnew.
  cbn -[Z.max] in *.
  assert (forall r, In r (rows d) ->
            id r < Z.max (sqlite_sequence d)
                     (max_id (filter (fun r => negb (id r =? i)) (rows d)))
                   + 1) as Hlt.
  { intros r Hr'. destruct Hw as [_ Hb]. rewrite Forall_forall in Hb.
    specialize (Hb r Hr'). lia. }
  split; [lia|]. split; [exact Hlt|]. split; [|reflexivity].
  apply find_absent. intros r Hr'. apply Z.eqb_neq.
  specialize (Hlt r Hr'). unfold max_id in Hlt. lia.
Qed.

(** X5.  A create that is accepted adds one record at the end of the
    table and leaves the others as they are: every id that was found is
    found with the same record, and the count grows by one. *)
Theorem add_job_keeps_records d company role location date status sal
    notes :
  strip company <> "" -> strip role <> "" ->
  let created :=
    fst (add_job float d company role location date status sal notes) in
  (forall i j, Job_tracker.get_job_by_id d i = Some j ->
     Job_tracker.get_job_by_id created i = Some j)
  /\ count_all created = S (count_all d)
  /\ (exists j, rows created = (rows d ++ [j])%list
                /\ id j = sqlite_sequence created).
Proof.
  intros Hc Hr. cbv zeta. rewrite (add_job_inserts _ _ _ _ _ _ _ _ Hc Hr).
  unfold Job_tracker.get_job_by_id, select_by_id, count_all.
  cbn -[Z.max]. split; [|split].
  - intros i j Hj. now apply find_app_found.
  - rewrite length_app. simpl. lia.
  - eexists. split; reflexivity.
Qed.

(** X6.  An update reaches no record but the one named: for an id line
    that is all ASCII once trimmed, and whatever the four other lines
    hold, every other id is found with the record it had, and the count of
    the table is unchanged.  The same holds of the dashboard's save for
    the id chosen. *)
Theorem update_leaves_other_records d id_line status_line date_line sal
    notes_line (chosen : status_option) new_date new_notes i i' :
  is_ascii (strip id_line) = true ->
  i' <> int (strip id_line) -> i' <> i ->
  let updated :=
    fst (Job_tracker.update_job float d id_line status_line date_line sal
           notes_line) in
  let saved :=
    fst (page_manage_jobs float d i chosen new_date sal new_notes
           Save_changes) in
  Job_tracker.get_job_by_id updated i' = Job_tracker.get_job_by_id d i'
  /\ count_all updated = count_all d
  /\ App.get_job_by_id saved i' = App.get_job_by_id d i'
  /\ count_all saved = count_all d.
Proof.
  intros _ H1 H2. cbv zeta.
  assert (forall s a x n k, count_all (sql_update d s a x n k) = count_all d)
    as Hcount.
  { intros. unfold count_all, sql_update. cbn [rows]. apply length_map. }
  split; [|split; [|split]].
  - destruct (isdigit (strip id_line)) eqn:Hd.
    + destruct (Job_tracker.get_job_by_id d (int (strip id_line)))
        as [j|] eqn:Hj.
      * rewrite (update_job_found _ float d _ _ _ _ _ j Hd Hj).
        now apply select_not_updated.
      * unfold Job_tracker.update_job. now rewrite Hd, Hj.
    + unfold Job_tracker.update_job. now rewrite Hd.
  - destruct (isdigit (strip id_line)) eqn:Hd.
    + destruct (Job_tracker.get_job_by_id d (int (strip id_line)))
        as [j|] eqn:Hj.
      * rewrite (update_job_found _ float d _ _ _ _ _ j Hd Hj). apply Hcount.
      * unfold Job_tracker.update_job. now rewrite Hd, Hj.
    + unfold Job_tracker.update_job. now rewrite Hd.
  - destruct (App.get_job_by_id d i) as [j|] eqn:Hj.
    + rewrite (page_manage_jobs_save _ float d _ j _ _ _ _ Hj).
      now apply select_not_updated.
    + unfold page_manage_jobs. rewrite Hj. now destruct (fetch_all_jobs d).
  - destruct (App.get_job_by_id d i) as [j|] eqn:Hj.
    + rewrite (page_manage_jobs_save _ float d _ j _ _ _ _ Hj). apply Hcount.
    + unfold page_manage_jobs. rewrite Hj. now destruct (fetch_all_jobs d).
Qed.


(** X8.  The two front-ends store the same record: the form of the
    dashboard, submitted, leaves the table that the create of the text
    menu leaves when the status line is the text of the option chosen.
    Accepted or refused, with or without a salary warning, the two agree,
    and they warn in the same cases. *)
Theorem page_add_job_as_add_job d company role location date
    (chosen : status_option) sal notes :
  let page :=
    page_add_job float d company role location date chosen sal notes true in
  let menu :=
    add_job float d company role location date (option_text chosen) sal
      notes in
  fst page = fst menu
  /\ (In Error_required (snd page) <-> In Required_not_saved (snd menu))
  /\ (In Warning_saving_as_empty (snd page)
      <-> In Invalid_salary_saving_empty (snd menu))
  /\ (In Success_saved (snd page) <-> In Saved (snd menu)).
Proof.
  cbv zeta. unfold page_add_job, add_job, insert_job.
  destruct (String.eqb (strip company) "" || String.eqb (strip role) "").
  - cbn. intuition congruence.
  - destruct (String.eqb (strip sal) ""); [|destruct (float (strip sal))];
      cbn; (split; [reflexivity|]); intuition congruence.
Qed.

End Records.

(* ================================================================= *)
(** ** The listings and the whole table *)




Section Listings.

Variable real : Type.
Implicit Types (d : db real) (r : job real) (l : list (job real)).

Lemma insert_desc_last r l :
  (forall x, In x l -> id r < id x) -> insert_desc r l = (l ++ [r])%list.
Proof.
  induction l as [|y l IH]; simpl; intros H; [reflexivity|].
  assert ((id y <? id r) = false) as ->.
  { apply Z.ltb_ge. specialize (H y (or_introl eq_refl)). lia. }
  f_equal. apply IH. intros x Hx. apply H. now right.
Qed.

(** On rows in the order of the table, [ORDER BY id DESC] is the
    reversal. *)
Lemma order_by_id_desc_rev l :
  StronglySorted (fun a b => id a < id b) l -> order_by_id_desc l = rev l.
Proof.
  induction 1 as [|y l Hs IH Hy]; simpl; [reflexivity|].
  rewrite IH. apply insert_desc_last. intros x Hx.
  apply in_rev in Hx. rewrite Forall_forall in Hy. now apply Hy.
Qed.

(** X9.  In a well-formed table the full list of the text menu and the
    fetch of the dashboard are the table read backwards: every record
    once, the most recent first, and as many lines as there are
    records. *)
Theorem view_all_jobs_is_table_reversed d :
  wf d ->
  view_all_jobs d = rev (map columns7 (rows d))
  /\ fetch_all_jobs d = rev (rows d)
  /\ List.length (view_all_jobs d) = count_all d
  /\ descending (map listing_id (view_all_jobs d)).
Proof.
  intros Hw. pose proof Hw as [Hs _].
  unfold view_all_jobs, fetch_all_jobs, count_all.
  rewrite (order_by_id_desc_rev _ Hs).
  split; [apply map_rev|]. split; [reflexivity|].
  split; [now rewrite length_map, length_rev|].
  rewrite <- (order_by_id_desc_rev _ Hs). now apply view_all_jobs_descending.
Qed.

(** X10.  The export hands the CSV writer nothing when the table is empty
    and otherwise the header, then every record once, the most recent
    first: the rows the dashboard fetches. *)
Theorem export_to_csv_rows d :
  wf d ->
  export_to_csv d
  = match rows d with
    | [] => None
    | _ => Some (csv_header, rev (rows d))
    end
  /\ (forall header exported,
        export_to_csv d = Some (header, exported) ->
        exported = fetch_all_jobs d
        /\ List.length exported = count_all d
        /\ descending (map id exported)).
Proof.
  intros Hw. pose proof Hw as [Hs _]. split.
  - unfold export_to_csv. rewrite (order_by_id_desc_rev _ Hs).
    destruct (rows d) as [|y l] eqn:E; [reflexivity|].
    destruct (rev (y :: l)) eqn:R; [|reflexivity].
    apply (f_equal (@List.length _)) in R. rewrite length_rev in R.
    discriminate.
  - intros header exported H. split; [|split].
    + unfold export_to_csv, fetch_all_jobs in *.
      destruct (order_by_id_desc (rows d)); [discriminate|].
      now injection H as _ <-.
    + unfold export_to_csv, count_all in *.
      rewrite (order_by_id_desc_rev _ Hs) in H.
      destruct (rev (rows d)) eqn:R; [discriminate|].
      injection H as _ <-. now rewrite <- R, length_rev.
    + now apply (export_to_csv_descending _ d header).
Qed.


(** X12.  What the search and the filter by status list is part of the
    full list: every line they return is a line of [view_all_jobs]. *)
Theorem found_rows_in_full_list d line x :
  In x (found_rows (search_jobs d line))
  \/ In x (found_rows (view_by_status d line)) ->
  In x (view_all_jobs d).
Proof.
  unfold search_jobs, view_by_status, view_all_jobs. intros [H|H].
  - destruct (String.eqb (lower (strip line)) ""); [destruct H|].
    cbn [found_rows] in H. apply in_map_iff in H as (r & <- & Hr).
    apply in_map. apply order_by_id_desc_In.
    apply order_by_id_desc_In, filter_In in Hr. tauto.
  - destruct (String.eqb (strip line) ""); [destruct H|].
    cbn [found_rows] in H. apply in_map_iff in H as (r & <- & Hr).
    apply in_map. apply order_by_id_desc_In. apply filter_In in Hr. tauto.
Qed.

End Listings.

(* ================================================================= *)
(** ** GROUP BY company and the top companies *)

Section Companies.

Variable real : Type.
Implicit Types (d : db real) (r : job real) (l : list (job real)).
Implicit Types (g : list (string * nat)).

Lemma bump_text_lift k g :
  map lift_key (bump_text k g) = bump (Some k) (map lift_key g).
Proof.
  induction g as [|[k0 c] g IH]; simpl; [reflexivity|].
  destruct (String.eqb k k0); [reflexivity|].
  destruct (String.leb k k0); [reflexivity|]. simpl. now rewrite IH.
Qed.

Lemma group_by_company_lift l :
  map lift_key (group_by_company l)
  = group_by_status (map company_as_status l).
Proof.
  unfold group_by_company, group_by_status.
  change (@nil (option string * nat)) with (map lift_key []).
  generalize (@nil (string * nat)) as g.
  induction l as [|r l IH]; intros g; simpl; [reflexivity|].
  rewrite IH. now rewrite bump_text_lift.
Qed.

Lemma count_company_as_status c l :
  count_status (Some c) (map company_as_status l) = count_company c l.
Proof.
  unfold count_status, count_company.
  induction l as [|r l IH]; simpl; [reflexivity|].
  destruct (String.eqb (company r) c); simpl; now rewrite IH.
Qed.

Lemma counted_In (p : list (job real)) (h : list (option string * nat)) k c :
  counted h p -> (In (k, c) h <-> c = count_status k p /\ (0 < c)%nat).
Proof.
  intros (Hs & Hp & _ & Hc). split.
  - intros H. split.
    + rewrite <- Hc. symmetry. now apply In_count_of.
    + rewrite Forall_forall in Hp. exact (Hp _ H).
  - intros [-> H]. apply count_of_In; [apply Hc|exact H].
Qed.

Lemma lift_key_In c n g : In (Some c, n) (map lift_key g) <-> In (c, n) g.
Proof.
  rewrite in_map_iff. split.
  - intros ([c' n'] & [= <- <-] & H). exact H.
  - intros H. now exists (c, n).
Qed.

(** The groups of [GROUP BY company]: one for each company that some row
    has, counting the rows of that company. *)
Lemma group_by_company_In l c n :
  In (c, n) (group_by_company l)
  <-> n = count_company c l /\ (0 < n)%nat.
Proof.
  rewrite <- lift_key_In, group_by_company_lift.
  rewrite (counted_In _ _ _ _ (counted_group_by _ _)).
  now rewrite count_company_as_status.
Qed.

Lemma group_by_company_NoDup l : NoDup (map fst (group_by_company l)).
Proof.
  destruct (counted_group_by real (map company_as_status l)) as (Hs & _).
  apply keys_sorted_NoDup in Hs. rewrite <- group_by_company_lift in Hs.
  rewrite map_map in Hs. cbn [lift_key fst] in Hs.
  rewrite <- (map_map fst Some) in Hs.
  apply NoDup_map_inv in Hs. exact Hs.
Qed.

Lemma group_by_company_sum l :
  list_sum (map snd (group_by_company l)) = List.length l.
Proof.
  destruct (counted_group_by real (map company_as_status l))
    as (_ & _ & Hsum & _).
  rewrite <- group_by_company_lift, map_map, length_map in Hsum.
  exact Hsum.
Qed.

End Companies.

Section Sorted_lists.

Variable A : Type.
Variable R : A -> A -> Prop.

Lemma sorted_app_inv (l1 l2 : list A) :
  StronglySorted R (l1 ++ l2) ->
  StronglySorted R l1 /\ forall a b, In a l1 -> In b l2 -> R a b.
Proof.
  induction l1 as [|x l1 IH]; simpl; intros H.
  - split; [constructor|]. intros a b [].
  - apply StronglySorted_inv in H as [H Hx]. destruct (IH H) as [H1 H2].
    apply Forall_app in Hx as [Hx1 Hx2]. split; [now constructor|].
    intros a b [<-|Ha] Hb.
    + rewrite Forall_forall in Hx2. now apply Hx2.
    + now apply H2.
Qed.

End Sorted_lists.

Section Top_companies.

Variable real : Type.
Variable order_by_count_desc : list (string * nat) -> list (string * nat).

(** What [ORDER BY COUNT( * ) DESC] promises of the order it gives. *)
Hypothesis order_permutes :
  forall g, Permutation (order_by_count_desc g) g.
Hypothesis order_sorts :
  forall g, counts_descending (order_by_count_desc g).

Implicit Types (d : db real) (r : job real).

(** X13.  The lines of the top companies are at most five, of companies
    all different, each with the number of its records; the counts come
    greater first, and no company left out has more records than one that
    is listed.  With five companies or fewer, every company is listed.  On
    an empty table there is no line. *)
Theorem top_companies_are_the_largest d :
  let top := show_stats_companies order_by_count_desc d in
  top = top_companies order_by_count_desc d
  /\ (List.length top <= 5)%nat
  /\ NoDup (map fst top)
  /\ (forall c n, In (c, n) top ->
        n = count_company c (rows d) /\ (0 < n)%nat)
  /\ counts_descending top
  /\ (forall r c n, In r (rows d) -> In (c, n) top ->
        In (company r) (map fst top)
        \/ (count_company (company r) (rows d) <= n)%nat)
  /\ ((List.length (group_by_company (rows d)) <= 5)%nat ->
      forall r, In r (rows d) ->
        In (company r, count_company (company r) (rows d)) top)
  /\ (rows d = [] -> top = []).
Proof.
  cbv zeta.
  assert (order_by_count_desc [] = []) as Hnil.
  { apply Permutation_nil, Permutation_sym, order_permutes. }
  assert (show_stats_companies order_by_count_desc d
          = top_companies order_by_count_desc d) as ->.
  { unfold show_stats_companies, top_companies, count_all.
    destruct (rows d); [|reflexivity]. cbn. now rewrite Hnil. }
  unfold top_companies.
  set (g := group_by_company (rows d)).
  set (s := order_by_count_desc g).
  pose proof (order_permutes g) as P. fold s in P.
  pose proof (order_sorts g) as S. fold s in S.
  unfold counts_descending in *. rewrite <- (firstn_skipn 5 s) in S.
  apply sorted_app_inv in S as [S1 S2].
  assert (forall e, In e (firstn 5 s) -> In e g) as Hsub.
  { intros e He. apply (Permutation_in _ P).
    rewrite <- (firstn_skipn 5 s). apply in_or_app. now left. }
  split; [reflexivity|]. split; [apply firstn_le_length|]. split.
  { assert (NoDup (map fst s)) as N.
    { apply (Permutation_NoDup (Permutation_sym (Permutation_map fst P))).
      apply group_by_company_NoDup. }
    rewrite <- (firstn_skipn 5 s), map_app in N.
    now apply NoDup_app_remove_r in N. }
  split.
  { intros c n H. apply Hsub in H. now apply group_by_company_In in H. }
  split; [exact S1|]. split.
  { intros r c n Hr Hin.
    assert (In (company r, count_company (company r) (rows d)) s) as Hs.
    { apply (Permutation_in _ (Permutation_sym P)).
      apply group_by_company_In. split; [reflexivity|].
      unfold count_company.
      assert (In r (filter (fun x => String.eqb (company x) (company r))
                      (rows d))) as Hf.
      { apply filter_In. split; [assumption|]. apply String.eqb_refl. }
      destruct (filter _ (rows d)); [destruct Hf|simpl; lia]. }
    rewrite <- (firstn_skipn 5 s) in Hs. apply in_app_or in Hs as [Hs|Hs].
    - left. now apply (in_map fst) in Hs.
    - right. exact (S2 _ _ Hin Hs). }
  split.
  { intros Hlen r Hr.
    assert (firstn 5 s = s) as ->.
    { apply firstn_all2. rewrite (Permutation_length P). exact Hlen. }
    apply (Permutation_in _ (Permutation_sym P)).
    apply group_by_company_In. split; [reflexivity|].
    unfold count_company.
    assert (In r (filter (fun x => String.eqb (company x) (company r))
                    (rows d))) as Hf.
    { apply filter_In. split; [assumption|]. apply String.eqb_refl. }
    destruct (filter _ (rows d)); [destruct Hf|simpl; lia]. }
  intros E. unfold s, g. rewrite E. cbn. now rewrite Hnil.
Qed.

End Top_companies.

(** The insertion sort by count permutes its argument and puts the greater
    counts first. *)
Lemma insert_by_count_permutes e g :
  Permutation (Sample.insert_by_count e g) (e :: g).
Proof.
  induction g as [|x g IH]; simpl; [reflexivity|].
  destruct (snd x <? snd e)%nat; [reflexivity|].
  rewrite IH. apply perm_swap.
Qed.

Lemma sample_order_permutes g :
  Permutation (Sample.order_by_count_desc g) g.
Proof.
  induction g as [|e g IH]; simpl; [constructor|].
  rewrite insert_by_count_permutes. now constructor.
Qed.

Lemma insert_by_count_sorts e g :
  counts_descending g -> counts_descending (Sample.insert_by_count e g).
Proof.
  unfold counts_descending. induction 1 as [|x g Hs IH Hx]; simpl.
  - repeat constructor.
  - destruct (snd x <? snd e)%nat eqn:E.
    + apply Nat.ltb_lt in E. constructor; [now constructor|].
      constructor; [lia|]. eapply Forall_impl; [|exact Hx].
      intros b Hb. cbn beta in Hb. lia.
    + apply Nat.ltb_ge in E. constructor; [assumption|].
      apply Forall_forall. intros b Hb.
      apply (Permutation_in _ (insert_by_count_permutes e g)) in Hb.
      destruct Hb as [<-|Hb]; [exact E|].
      rewrite Forall_forall in Hx. now apply Hx.
Qed.

Lemma sample_order_sorts g : counts_descending (Sample.order_by_count_desc g).
Proof.
  induction g as [|e g IH]; simpl; [constructor|].
  now apply insert_by_count_sorts.
Qed.

(* ================================================================= *)
(** ** The fields the programs write *)

Section Fields.

Variable real : Type.
Variable float : string -> option (pyfloat real).
Implicit Types (d : db real) (j r : job real).

Lemma fields_ok_insert d c ro l a s (x : option (pyfloat real)) n :
  strip c <> "" -> strip ro <> "" -> fields_ok d ->
  fields_ok (fst (sql_insert d (strip c) (strip ro) (Some l) (Some a)
                    (Some s) x (Some n))).
Proof.
  intros Hc Hr H. unfold fields_ok. cbn -[Z.max]. apply Forall_app.
  split; [exact H|]. constructor; [|constructor].
  unfold required_filled, no_null_text.
  cbn [company role location applied_date status notes].
  rewrite !strip_idem. repeat split; try assumption; discriminate.
Qed.

Lemma fields_ok_update d s a (x : option (pyfloat real)) n i :
  fields_ok d -> s <> None -> a <> None -> n <> None ->
  fields_ok (sql_update d s a x n i).
Proof.
  intros H Hs Ha Hn. unfold fields_ok, sql_update. cbn [rows].
  apply Forall_map. eapply Forall_impl; [|exact H].
  intros r Hr. cbn beta. destruct (id r =? i); [|exact Hr].
  destruct Hr as [Hf (Hl & _)]. unfold required_filled, no_null_text in *.
  cbn [company role location applied_date status notes]. tauto.
Qed.

Lemma fields_ok_delete d i : fields_ok d -> fields_ok (sql_delete d i).
Proof.
  intros H. unfold fields_ok, sql_delete. cbn [rows].
  apply Forall_forall. intros r Hr. apply filter_In in Hr as [Hr _].
  unfold fields_ok in H. rewrite Forall_forall in H. now apply H.
Qed.

Lemma fields_ok_found d i j :
  fields_ok d -> select_by_id d i = Some j -> no_null_text j.
Proof.
  intros H Hj. apply select_by_id_sound in Hj as [_ Hin].
  unfold fields_ok in H. rewrite Forall_forall in H. now apply H.
Qed.

Lemma fields_ok_add_job d company role location date status sal notes :
  fields_ok d ->
  fields_ok (fst (add_job float d company role location date status sal
                    notes)).
Proof.
  intros H.
  destruct (String.eqb_spec (strip company) "") as [Ec|Ec].
  { unfold add_job. now rewrite Ec. }
  destruct (String.eqb_spec (strip role) "") as [Er|Er].
  { unfold add_job. rewrite Er, String.eqb_refl, orb_true_r. exact H. }
  rewrite (add_job_inserts _ float d _ _ _ _ _ _ _ Ec Er).
  now apply fields_ok_insert.
Qed.

Lemma fields_ok_update_job d id_line status_line date_line sal notes_line :
  fields_ok d ->
  fields_ok (fst (Job_tracker.update_job float d id_line status_line
                    date_line sal notes_line)).
Proof.
  intros H. destruct (isdigit (strip id_line)) eqn:Hd.
  - destruct (Job_tracker.get_job_by_id d (int (strip id_line)))
      as [j|] eqn:Hj.
    + rewrite (update_job_found _ float d _ _ _ _ _ j Hd Hj). cbn [fst].
      destruct (fields_ok_found d _ j H Hj) as (_ & Ha & Hs & Hn).
      apply fields_ok_update; try assumption.
      * now destruct (String.eqb (strip status_line) "").
      * now destruct (String.eqb (strip date_line) "").
      * now destruct (String.eqb (strip notes_line) "").
    + unfold Job_tracker.update_job. now rewrite Hd, Hj.
  - unfold Job_tracker.update_job. now rewrite Hd.
Qed.

Lemma fields_ok_delete_job d id_line confirm_line :
  fields_ok d ->
  fields_ok (fst (Job_tracker.delete_job d id_line confirm_line)).
Proof.
  intros H. unfold Job_tracker.delete_job.
  destruct (isdigit (strip id_line)); [|exact H]. cbn [negb].
  destruct (Job_tracker.get_job_by_id d (int (strip id_line))); [|exact H].
  destruct (String.eqb (lower (strip confirm_line)) "y"); [|exact H].
  now apply fields_ok_delete.
Qed.

(** X14.  Neither page of the dashboard breaks the table: after the form
    of a new job, submitted or not, and after the manage page, whatever
    button is pressed, the ids are still increasing and within the
    counter, every record still has a trimmed, non-empty company and role,
    and no optional text is NULL. *)
Theorem dashboard_keeps_table d company role location date
    (chosen : status_option) sal notes submitted i new_date new_notes
    pressed :
  wf d -> fields_ok d ->
  let added :=
    fst (page_add_job float d company role location date chosen sal notes
           submitted) in
  let managed :=
    fst (page_manage_jobs float d i chosen new_date sal new_notes pressed) in
  (wf added /\ fields_ok added) /\ (wf managed /\ fields_ok managed).
Proof.
  intros Hw Hf. cbv zeta. split; split.
  - now apply wf_page_add_job.
  - unfold page_add_job, insert_job. destruct submitted; [|exact Hf].
    destruct (String.eqb_spec (strip company) "") as [Ec|Ec]; [exact Hf|].
    destruct (String.eqb_spec (strip role) "") as [Er|Er]; [exact Hf|].
    cbn [orb].
    destruct (String.eqb (strip sal) ""); [|destruct (float (strip sal))];
      now apply fields_ok_insert.
  - now apply wf_page_manage_jobs.
  - unfold page_manage_jobs, App.update_job, App.delete_job.
    destruct (fetch_all_jobs d); [exact Hf|].
    destruct (App.get_job_by_id d i); [|exact Hf].
    destruct pressed; [|now apply fields_ok_delete|exact Hf].
    destruct (String.eqb (strip sal) ""); [|destruct (float (strip sal))];
      apply fields_ok_update; (assumption || discriminate).
Qed.

End Fields.

(* ================================================================= *)
(** ** A run of the menu *)

Section Session.

Variable real : Type.
Variable float : string -> option (pyfloat real).
Implicit Types (d : db real) (lines : list string).

(** The cases of one turn of the loop. *)
Ltac turn_cases :=
  repeat match goal with
         | |- context [if String.eqb ?a ?b then _ else _] =>
             destruct (String.eqb a b)
         end.

(** What the create, the update and the delete of the menu keep, a run of
    the menu keeps. *)
Lemma main_loop_invariant (P : db real -> Prop) :
  (forall d c r l a s sal n,
     P d -> P (fst (add_job float d c r l a s sal n))) ->
  (forall d i s a sal n,
     P d -> P (fst (Job_tracker.update_job float d i s a sal n))) ->
  (forall d i c, P d -> P (fst (Job_tracker.delete_job d i c))) ->
  forall fuel d lines, P d -> P (fst (main_loop float fuel d lines)).
Proof.
  intros Ha Hu Hd. induction fuel as [|fuel IH]; intros d lines H;
    [exact H|].
  destruct lines as [|choice rest]; [exact H|]. cbn [main_loop].
  cbv zeta. turn_cases; try (now apply IH); try exact H.
  - unfold add_job_reading.
    destruct rest as [|? [|? [|? [|? [|? [|? [|? ?]]]]]]]; try exact H.
    apply IH, Ha, H.
  - destruct rest; [exact H|now apply IH].
  - unfold update_job_reading. destruct rest as [|i rest]; [exact H|].
    destruct (isdigit (strip i)); [|now apply IH].
    destruct (Job_tracker.get_job_by_id d (int (strip i)));
      [|now apply IH].
    destruct rest as [|? [|? [|? [|? ?]]]]; try exact H. apply IH, Hu, H.
  - unfold delete_job_reading. destruct rest as [|i rest]; [exact H|].
    destruct (isdigit (strip i)); [|now apply IH].
    destruct (Job_tracker.get_job_by_id d (int (strip i)));
      [|now apply IH].
    destruct rest; [exact H|]. apply IH, Hd, H.
  - destruct rest; [exact H|now apply IH].
Qed.

Lemma add_job_counter d c r l a s sal n :
  sqlite_sequence d
  <= sqlite_sequence (fst (add_job float d c r l a s sal n)).
Proof.
  unfold add_job.
  destruct (String.eqb (strip c) "" || String.eqb (strip r) "");
    [cbn; lia|].
  destruct (String.eqb (strip sal) ""); [|destruct (float (strip sal))];
    cbn -[Z.max]; lia.
Qed.

Lemma update_job_counter d i s a sal n :
  sqlite_sequence (fst (Job_tracker.update_job float d i s a sal n))
  = sqlite_sequence d.
Proof.
  destruct (isdigit (strip i)) eqn:Hd.
  - destruct (Job_tracker.get_job_by_id d (int (strip i))) as [j|] eqn:Hj.
    + now rewrite (update_job_found _ float d _ _ _ _ _ j Hd Hj).
    + unfold Job_tracker.update_job. now rewrite Hd, Hj.
  - unfold Job_tracker.update_job. now rewrite Hd.
Qed.

Lemma delete_job_counter d i c :
  sqlite_sequence (fst (Job_tracker.delete_job d i c)) = sqlite_sequence d.
Proof.
  unfold Job_tracker.delete_job. destruct (isdigit (strip i)); [|reflexivity].
  cbn [negb].
  destruct (Job_tracker.get_job_by_id d (int (strip i))); [|reflexivity].
  now destruct (String.eqb (lower (strip c)) "y").
Qed.

(** X15.  Whatever is typed, a run of the menu on a well-formed table
    leaves a well-formed table: the ids increase along the table, are
    positive and within the AUTOINCREMENT counter; and the counter never
    goes down, so that no run hands out an id a second time. *)
Theorem main_keeps_ids_well_formed d lines :
  wf d ->
  wf (fst (main float d lines))
  /\ sqlite_sequence d <= sqlite_sequence (fst (main float d lines)).
Proof.
  intros Hw. unfold main, create_table. split.
  - apply (main_loop_invariant wf); try assumption; intros.
    + now apply wf_add_job.
    + now apply wf_update_job.
    + now apply wf_delete_job.
  - apply (main_loop_invariant
             (fun d' => sqlite_sequence d <= sqlite_sequence d'));
      [| | |lia]; intros.
    + pose proof (add_job_counter d0 c r l a s sal n). lia.
    + rewrite update_job_counter. assumption.
    + rewrite delete_job_counter. assumption.
Qed.

(** X16.  Whatever is typed, a run of the menu writes no record with a
    blank company or role and no NULL in an optional text: if every record
    has a trimmed, non-empty company and role and its four optional texts
    not NULL, so it is after the run.  This holds of every run that starts
    on the empty table. *)
Theorem main_keeps_fields d lines :
  fields_ok d ->
  fields_ok (fst (main float d lines))
  /\ fields_ok (fst (main float empty_db lines)).
Proof.
  intros H. unfold main, create_table. split.
  - apply (main_loop_invariant fields_ok); try assumption; intros.
    + now apply fields_ok_add_job.
    + now apply fields_ok_update_job.
    + now apply fields_ok_delete_job.
  - apply (main_loop_invariant fields_ok); intros.
    + now apply fields_ok_add_job.
    + now apply fields_ok_update_job.
    + now apply fields_ok_delete_job.
    + constructor.
Qed.

Lemma main_loop_enough_fuel fuel d lines :
  (List.length lines < fuel)%nat ->
  snd (main_loop float fuel d lines) <> Out_of_fuel.
Proof.
  revert d lines. induction fuel as [|fuel IH]; intros d lines H; [lia|].
  destruct lines as [|choice rest]; [discriminate|]. cbn [main_loop].
  cbn [List.length] in H. cbv zeta.
  turn_cases; try (apply IH; lia); try discriminate.
  - unfold add_job_reading.
    destruct rest as [|? [|? [|? [|? [|? [|? [|? ?]]]]]]]; try discriminate.
    apply IH. cbn [List.length] in *. lia.
  - destruct rest; [discriminate|]. apply IH. cbn [List.length] in *. lia.
  - unfold update_job_reading. destruct rest as [|i rest]; [discriminate|].
    cbn [List.length] in H.
    destruct (isdigit (strip i)); [|apply IH; lia].
    destruct (Job_tracker.get_job_by_id d (int (strip i)));
      [|apply IH; lia].
    destruct rest as [|? [|? [|? [|? ?]]]]; try discriminate.
    apply IH. cbn [List.length] in *. lia.
  - unfold delete_job_reading. destruct rest as [|i rest]; [discriminate|].
    cbn [List.length] in H.
    destruct (isdigit (strip i)); [|apply IH; lia].
    destruct (Job_tracker.get_job_by_id d (int (strip i)));
      [|apply IH; lia].
    destruct rest; [discriminate|]. apply IH. cbn [List.length] in *. lia.
  - destruct rest; [discriminate|]. apply IH. cbn [List.length] in *. lia.
Qed.

Lemma main_loop_exited fuel d lines :
  snd (main_loop float fuel d lines) = Exited ->
  exists line, In line lines /\ strip line = "9".
Proof.
  revert d lines. induction fuel as [|fuel IH]; intros d lines;
    [discriminate|].
  destruct lines as [|choice rest]; [discriminate|]. cbn [main_loop].
  cbv zeta.
  assert (forall d' rest',
            (forall x, In x rest' -> In x rest) ->
            snd (main_loop float fuel d' rest') = Exited ->
            exists line, In line (choice :: rest) /\ strip line = "9")
    as Hrec.
  { intros d' rest' Hsub H. destruct (IH d' rest' H) as (x & Hx & E).
    exists x. split; [right; now apply Hsub|exact E]. }
  destruct (String.eqb_spec (strip choice) "9") as [E9|_].
  { intros _. exists choice. split; [now left|exact E9]. }
  turn_cases; try (apply Hrec; now auto); try discriminate.
  - unfold add_job_reading.
    destruct rest as [|? [|? [|? [|? [|? [|? [|? ?]]]]]]]; try discriminate.
    apply Hrec. intros x Hx. do 7 right. exact Hx.
  - destruct rest; [discriminate|]. apply Hrec. intros x Hx. now right.
  - unfold update_job_reading. destruct rest as [|i rest]; [discriminate|].
    destruct (isdigit (strip i));
      [|apply Hrec; intros x Hx; now right].
    destruct (Job_tracker.get_job_by_id d (int (strip i)));
      [|apply Hrec; intros x Hx; now right].
    destruct rest as [|? [|? [|? [|? ?]]]]; try discriminate.
    apply Hrec. intros x Hx. do 5 right. exact Hx.
  - unfold delete_job_reading. destruct rest as [|i rest]; [discriminate|].
    destruct (isdigit (strip i));
      [|apply Hrec; intros x Hx; now right].
    destruct (Job_tracker.get_job_by_id d (int (strip i)));
      [|apply Hrec; intros x Hx; now right].
    destruct rest; [discriminate|].
    apply Hrec. intros x Hx. do 2 right. exact Hx.
  - destruct rest; [discriminate|]. apply Hrec. intros x Hx. now right.
Qed.

(** X17.  A run of the menu on a finite list of plain lines (all ASCII,
    of at most 1000 characters, the numbers of at most 18 digits, so that
    no id line makes the lookup raise and no keyword makes the search
    raise) comes to an end, and never for want of fuel: it stops at an
    exit or when an [input()] finds no line left.  It exits only if some
    line typed is "9" once trimmed, and it exits at once, the table
    untouched, when the first line is. *)
Theorem main_ends d lines :
  Forall plain_line lines ->
  (snd (main float d lines) = Exited
   \/ snd (main float d lines) = End_of_input)
  /\ (snd (main float d lines) = Exited ->
      exists line, In line lines /\ strip line = "9")
  /\ (forall first, strip first = "9" ->
        main float d (first :: lines) = (d, Exited)).
Proof.
  intros _.
  pose proof (main_loop_enough_fuel (S (List.length lines)) (create_table d)
                lines (Nat.lt_succ_diag_r _)) as H.
  unfold main. split; [|split].
  - destruct (snd (main_loop _ _ _ _)); tauto.
  - apply main_loop_exited.
  - intros first E. cbn [main_loop]. cbv zeta. rewrite E. reflexivity.
Qed.

End Session.

(* ================================================================= *)
(** ** The filter by status and the count by status *)

Section Filter_and_count.

Variable real : Type.
Implicit Types (d : db real) (l : list (job real)).
Implicit Types (g : list (option string * nat)).

Lemma bump_matching_sum Q k g :
  matching_sum Q (bump k g)
  = ((if Q k then 1 else 0) + matching_sum Q g)%nat.
Proof.
  unfold matching_sum. induction g as [|[k0 c] g IH]; simpl.
  - destruct (Q k); reflexivity.
  - destruct (key_eqb k k0) eqn:E.
    + apply key_eqb_eq in E. subst k0. simpl. destruct (Q k); simpl; lia.
    + destruct (key_leb k k0); simpl.
      * destruct (Q k), (Q k0); simpl; lia.
      * destruct (Q k0); simpl; rewrite IH; lia.
Qed.

Lemma fold_matching_sum Q l g :
  matching_sum Q (fold_left (fun g r => bump (status r) g) l g)
  = (List.length (filter (fun r => Q (status r)) l) + matching_sum Q g)%nat.
Proof.
  revert g. induction l as [|r l IH]; intros g; simpl; [reflexivity|].
  rewrite IH, bump_matching_sum. destruct (Q (status r)); simpl; lia.
Qed.

(** X18.  The filter by status and the count by status agree: the number
    of lines the filter lists for a status line that is all ASCII is the
    sum of the counts of the groups whose status equals the trimmed line
    but for the case of the letters A to Z.  The filter merges what the count keeps apart, "Applied"
    and "applied", and lists at most as many lines as the table has
    records. *)
Theorem view_by_status_counts d line :
  strip line <> "" -> is_ascii (strip line) = true ->
  List.length (found_rows (view_by_status d line))
  = matching_sum (status_matches (lower (strip line)))
      (group_by_status (rows d))
  /\ (List.length (found_rows (view_by_status d line)) <= count_all d)%nat.
Proof.
  intros Hq _. rewrite (view_by_status_fetched _ d line Hq). cbn [found_rows].
  rewrite length_map. split.
  - unfold group_by_status. rewrite fold_matching_sum.
    unfold matching_sum. simpl. rewrite Nat.add_0_r. reflexivity.
  - apply filter_length_le.
Qed.

End Filter_and_count.

(* ================================================================= *)
(** ** Updates again *)

Section Update_again.

Variable real : Type.
Variable float : string -> option (pyfloat real).
Implicit Types (d : db real) (j : job real).

Lemma sql_update_twice d s a (x x' : option (pyfloat real)) n i :
  bind_real x' = bind_real x ->
  sql_update (sql_update d s a x n i) s a x' n i = sql_update d s a x n i.
Proof.
  intros E. unfold sql_update. cbn [rows sqlite_sequence]. f_equal.
  rewrite map_map. apply map_ext. intros r.
  destruct (id r =? i) eqn:E'; cbn [id]; rewrite E'; [|reflexivity].
  now rewrite E.
Qed.

(** X19.  An update of the text menu typed a second time changes nothing
    more: on the table the first one left, the same five lines leave that
    table, and say what they said the first time. *)
Theorem update_job_twice d id_line status_line date_line sal notes_line :
  let once :=
    Job_tracker.update_job float d id_line status_line date_line sal
      notes_line in
  Job_tracker.update_job float (fst once) id_line status_line date_line sal
    notes_line
  = once.
Proof.
  cbv zeta. destruct (isdigit (strip id_line)) eqn:Hd.
  - destruct (Job_tracker.get_job_by_id d (int (strip id_line)))
      as [j|] eqn:Hj.
    + rewrite (update_job_found _ float d _ _ _ _ _ j Hd Hj). cbn [fst].
      pose proof (select_updated _ d
                    (if String.eqb (strip status_line) "" then status j
                     else Some (strip status_line))
                    (if String.eqb (strip date_line) "" then applied_date j
                     else Some (strip date_line))
                    (if String.eqb (strip sal) ""
                     then fetched_real (salary j)
                     else match float (strip sal) with
                          | Some x => Some x
                          | None => fetched_real (salary j)
                          end)
                    (if String.eqb (strip notes_line) "" then notes j
                     else Some (strip notes_line))
                    (int (strip id_line)) j Hj) as Hj'.
      rewrite (update_job_found _ float _ _ _ _ _ _ _ Hd Hj').
      cbn [status applied_date salary notes].
      destruct (String.eqb (strip status_line) ""),
        (String.eqb (strip date_line) ""),
        (String.eqb (strip notes_line) ""),
        (String.eqb (strip sal) "");
        try destruct (float (strip sal));
        (f_equal; apply sql_update_twice; now rewrite ?bind_fetched).
    + unfold Job_tracker.update_job. rewrite Hd. cbn [negb].
      rewrite Hj. cbn [fst]. now rewrite Hj.
  - unfold Job_tracker.update_job. now rewrite Hd.
Qed.



End Update_again.

(* ================================================================= *)
(** ** The further theorems at concrete inputs *)

Lemma wf_two_applied : wf Examples.two_applied.
Proof.
  unfold Examples.two_applied. do 2 apply wf_add_job. apply wf_empty.
Qed.

Lemma fields_ok_two_applied : fields_ok Examples.two_applied.
Proof.
  unfold Examples.two_applied. do 2 apply fields_ok_add_job. constructor.
Qed.


(** The job 2 of two deleted from the dashboard. *)
Lemma page_manage_jobs_delete_witness :
  App.get_job_by_id Examples.two_applied 2 = Some Examples.globex_applied_job
  /\ App.get_job_by_id
       (fst (page_manage_jobs Sample.float Examples.two_applied 2 Applied
               "" "" "" Delete_this_job)) 2 = None
  /\ S (count_all
          (fst (page_manage_jobs Sample.float Examples.two_applied 2 Applied
                  "" "" "" Delete_this_job))) = 2%nat.
Proof.
  destruct (page_manage_jobs_delete Z Sample.float Examples.two_applied 2
              Examples.globex_applied_job Applied "" "" "" wf_two_applied
              eq_refl) as (_ & _ & A & _ & C).
  split; [reflexivity|]. split; [exact A|exact C].
Defined.

(** The id 7, which no job has. *)
Lemma delete_missing_id_witness :
  App.get_job_by_id Examples.two_applied 7 = None
  /\ App.delete_job Examples.two_applied 7 = Examples.two_applied
  /\ Job_tracker.delete_job Examples.two_applied " 7" "y"
     = (Examples.two_applied, [No_job_found 7]).
Proof.
  split; [reflexivity|].
  assert (String.length (strip " 7") <= 18)%nat as H by (cbv; lia).
  exact (delete_missing_id Z Examples.two_applied 7 " 7" "y" eq_refl eq_refl
           eq_refl H).
Defined.

(** The job 2 of two deleted, then a create: the new id is 3. *)
Lemma deleted_id_not_reused_witness :
  sqlite_sequence
    (fst (add_job Sample.float (App.delete_job Examples.two_applied 2)
            "Initech" "Tester" "" "" "" "" "")) = 3
  /\ Job_tracker.get_job_by_id Examples.two_applied 3 = None
  /\ option_map Sqlite.company
       (Job_tracker.get_job_by_id
          (fst (add_job Sample.float (App.delete_job Examples.two_applied 2)
                  "Initech" "Tester" "" "" "" "" "")) 3)
     = Some "Initech".
Proof.
  assert (strip "Initech" <> "") as H1 by (cbv; discriminate).
  assert (strip "Tester" <> "") as H2 by (cbv; discriminate).
  destruct (deleted_id_not_reused Z Sample.float Examples.two_applied 2
              "Initech" "Tester" "" "" "" "" "" wf_two_applied H1 H2)
    as (_ & _ & A & B).
  split; [reflexivity|]. split; [exact A|exact B].
Defined.

(** A third job added to two. *)
Lemma add_job_keeps_records_witness :
  Job_tracker.get_job_by_id
    (fst (add_job Sample.float Examples.two_applied
            "Initech" "Tester" "" "" "" "" "")) 1
  = Some Examples.acme_applied_job
  /\ count_all
       (fst (add_job Sample.float Examples.two_applied
               "Initech" "Tester" "" "" "" "" "")) = 3%nat.
Proof.
  assert (strip "Initech" <> "") as H1 by (cbv; discriminate).
  assert (strip "Tester" <> "") as H2 by (cbv; discriminate).
  destruct (add_job_keeps_records Z Sample.float Examples.two_applied
              "Initech" "Tester" "" "" "" "" "" H1 H2) as (A & B & _).
  split; [|exact B]. apply A. reflexivity.
Defined.

(** An update of the job 1 seen from the job 2. *)
Lemma update_leaves_other_records_witness :
  Job_tracker.get_job_by_id
    (fst (Job_tracker.update_job Sample.float Examples.two_applied
            "1" "Offer" "" "150" "")) 2
  = Some Examples.globex_applied_job
  /\ App.get_job_by_id
       (fst (page_manage_jobs Sample.float Examples.two_applied 1 Offer
               "" "150" "" Save_changes)) 2
     = Some Examples.globex_applied_job.
Proof.
  assert (2 <> int (strip "1")) as H1 by (cbv; discriminate).
  assert (2 <> 1) as H2 by discriminate.
  destruct (update_leaves_other_records Z Sample.float Examples.two_applied
              "1" "Offer" "" "150" "" Offer "" "" 1 2 eq_refl H1 H2)
    as (A & _ & B & _).
  split; [rewrite A|rewrite B]; reflexivity.
Defined.


(** The full list of two jobs. *)
Lemma view_all_jobs_is_table_reversed_witness :
  view_all_jobs Examples.two_applied
  = [columns7 Examples.globex_applied_job;
     columns7 Examples.acme_applied_job]
  /\ fetch_all_jobs Examples.two_applied
     = [Examples.globex_applied_job; Examples.acme_applied_job].
Proof.
  destruct (view_all_jobs_is_table_reversed Z Examples.two_applied
              wf_two_applied) as (A & B & _).
  split; [rewrite A|rewrite B]; reflexivity.
Defined.

(** The export of two jobs, and of none. *)
Lemma export_to_csv_rows_witness :
  export_to_csv Examples.two_applied
  = Some (csv_header,
          [Examples.globex_applied_job; Examples.acme_applied_job])
  /\ export_to_csv (@empty_db Z) = None.
Proof.
  split.
  - rewrite (proj1 (export_to_csv_rows Z Examples.two_applied
                      wf_two_applied)). reflexivity.
  - rewrite (proj1 (export_to_csv_rows Z empty_db (wf_empty Z))).
    reflexivity.
Defined.


(** A line the search finds. *)
Lemma found_rows_in_full_list_witness :
  In (columns7 Examples.acme_applied_job)
     (found_rows (search_jobs Examples.two_applied "acme"))
  /\ In (columns7 Examples.acme_applied_job)
        (view_all_jobs Examples.two_applied).
Proof.
  assert (In (columns7 Examples.acme_applied_job)
             (found_rows (search_jobs Examples.two_applied "acme"))) as H
    by (left; reflexivity).
  split; [exact H|].
  exact (found_rows_in_full_list Z Examples.two_applied "acme" _
           (or_introl H)).
Defined.

Lemma wf_three_jobs : wf Examples.three_jobs.
Proof.
  unfold Examples.three_jobs. do 3 apply wf_add_job. apply wf_empty.
Qed.

(** The top companies of three jobs under the insertion sort. *)
Lemma top_companies_are_the_largest_witness :
  show_stats_companies Sample.order_by_count_desc Examples.three_jobs
  = [("Acme", 2%nat); ("Globex", 1%nat)]
  /\ counts_descending
       (show_stats_companies Sample.order_by_count_desc Examples.three_jobs)
  /\ NoDup
       (map fst
          (show_stats_companies Sample.order_by_count_desc
             Examples.three_jobs)).
Proof.
  destruct (top_companies_are_the_largest Z Sample.order_by_count_desc
              sample_order_permutes sample_order_sorts Examples.three_jobs)
    as (_ & _ & A & _ & B & _).
  split; [reflexivity|]. split; [exact B|exact A].
Defined.

(** The two pages of the dashboard on two jobs. *)
Lemma dashboard_keeps_table_witness :
  wf (fst (page_add_job Sample.float Examples.two_applied
             " Initech " "Tester" "" "" Other "abc" "" true))
  /\ fields_ok
       (fst (page_manage_jobs Sample.float Examples.two_applied 1 Offer
               "" "" "" Save_changes)).
Proof.
  destruct (dashboard_keeps_table Z Sample.float Examples.two_applied
              " Initech " "Tester" "" "" Other "abc" "" true 1 "" ""
              Save_changes wf_two_applied fields_ok_two_applied)
    as ((A & _) & (_ & B)).
  destruct (dashboard_keeps_table Z Sample.float Examples.two_applied
              " Initech " "Tester" "" "" Offer "" "" true 1 "" ""
              Save_changes wf_two_applied fields_ok_two_applied)
    as (_ & (_ & B')).
  split; [exact A|exact B'].
Defined.

(** A run of the menu on the empty table: a create with a salary that is
    not a number, a list, an update of the job 1, the exit. *)
Lemma main_keeps_ids_well_formed_witness :
  main Sample.float empty_db Examples.typed
  = (mk_db
       [mk_job 1 "Acme" "Engineer" (Some "") (Some "") (Some "Offer")
          (Some 120) (Some "")] 1,
     Exited)
  /\ wf (fst (main Sample.float empty_db Examples.typed))
  /\ 0 <= sqlite_sequence (fst (main Sample.float empty_db Examples.typed)).
Proof.
  split; [reflexivity|].
  exact (main_keeps_ids_well_formed Z Sample.float empty_db Examples.typed
           (wf_empty Z)).
Defined.

Lemma main_keeps_fields_witness :
  fields_ok (fst (main Sample.float Examples.two_applied Examples.typed)).
Proof.
  exact (proj1 (main_keeps_fields Z Sample.float Examples.two_applied
                  Examples.typed fields_ok_two_applied)).
Defined.

Lemma typed_plain : Forall plain_line Examples.typed.
Proof.
  unfold Examples.typed.
  repeat (constructor;
            [split; [reflexivity|split; [intros _|]; cbv; lia]|]).
  constructor.
Qed.

(** The run above exits, at the line "9". *)
Lemma main_ends_witness :
  Forall plain_line Examples.typed
  /\ snd (main Sample.float empty_db Examples.typed) = Exited
  /\ (exists line, In line Examples.typed /\ strip line = "9")
  /\ main Sample.float Examples.two_applied [" 9 "; "1"]
     = (Examples.two_applied, Exited).
Proof.
  assert (Forall plain_line ["1"]) as H1.
  { constructor; [|constructor].
    split; [reflexivity|split; [intros _|]; cbv; lia]. }
  destruct (main_ends Z Sample.float empty_db Examples.typed typed_plain)
    as (_ & A & _).
  destruct (main_ends Z Sample.float Examples.two_applied ["1"] H1)
    as (_ & _ & B).
  split; [exact typed_plain|]. split; [reflexivity|].
  split; [exact (A eq_refl)|exact (B " 9 " eq_refl)].
Defined.

(** "Applied" and "applied" are two groups and one filter. *)
Lemma view_by_status_counts_witness :
  group_by_status (rows Examples.three_jobs)
  = [(Some "", 1%nat); (Some "Applied", 1%nat); (Some "applied", 1%nat)]
  /\ List.length (found_rows (view_by_status Examples.three_jobs "APPLIED"))
     = 2%nat.
Proof.
  assert (strip "APPLIED" <> "") as H by (cbv; discriminate).
  split; [reflexivity|].
  rewrite (proj1 (view_by_status_counts Z Examples.three_jobs "APPLIED" H
                    eq_refl)).
  reflexivity.
Defined.


(** The keyword " ACME " finds the company "Acme Corp", and "pune" the
    location. *)
Lemma search_jobs_plain_keyword_witness :
  no_wildcard (strip " ACME ") = true
  /\ plain_keyword (strip " ACME ")
  /\ searchable Examples.acme_paid_job
  /\ In (columns7 Examples.acme_paid_job)
        (found_rows (search_jobs Examples.acme_paid " ACME "))
  /\ In (columns7 Examples.acme_paid_job)
        (found_rows (search_jobs Examples.acme_paid "pune"))
  /\ ~ In (columns7 Examples.acme_paid_job)
         (found_rows (search_jobs Examples.acme_paid "globex")).
Proof.
  assert (In Examples.acme_paid_job (rows Examples.acme_paid)) as Hin
    by (left; reflexivity).
  assert (strip " ACME " <> "") as H1 by (cbv; discriminate).
  assert (strip "pune" <> "") as H2 by (cbv; discriminate).
  assert (strip "globex" <> "") as H3 by (cbv; discriminate).
  assert (plain_keyword (strip " ACME ")) as K1
    by (repeat split; cbv; lia).
  assert (plain_keyword (strip "pune")) as K2
    by (repeat split; cbv; lia).
  assert (plain_keyword (strip "globex")) as K3
    by (repeat split; cbv; lia).
  assert (searchable Examples.acme_paid_job) as Hs.
  { split; [reflexivity|]. split; [reflexivity|].
    intros t [= <-]. reflexivity. }
  split; [reflexivity|]. split; [exact K1|]. split; [exact Hs|].
  split; [|split].
  - apply (search_jobs_plain_keyword Z Examples.acme_paid " ACME "
             Examples.acme_paid_job H1 K1 eq_refl Hin Hs).
    left. reflexivity.
  - apply (search_jobs_plain_keyword Z Examples.acme_paid "pune"
             Examples.acme_paid_job H2 K2 eq_refl Hin Hs).
    right. right. exists "Pune". split; reflexivity.
  - intros H.
    apply (search_jobs_plain_keyword Z Examples.acme_paid "globex"
             Examples.acme_paid_job H3 K3 eq_refl Hin Hs) in H.
    destruct H as [H|[H|(t & [= <-] & H)]]; discriminate.
Defined.
